(** * MIS report instance: period date resolution, configuration checks,
      parameter values, column building and drill-down.

    Shallow embedding of [mis_builder/models/mis_report_instance.py].
    Records of the ORM are Rocq records, [Many2one] fields are optional
    record ids, [False]/[None] field values are [None], Python exceptions
    are the constructors of [exn] carried by the [result] monad. *)

From Stdlib Require Import ZArith List String Bool Lia Permutation.
Import ListNotations.
Local Open Scope string_scope.
Local Open Scope list_scope.
Local Open Scope Z_scope.

Set Implicit Arguments.

(** ** Exceptions and the result monad *)

Inductive exn : Type :=
| UserError (msg : string)
| ValidationError (msg : string)
| NameError (name : string)
| AttributeError (obj attr : string)
| OverflowError
| IndexError
| ValueError
| MissingError
| ExternalError (what : string).

Inductive result (A : Type) : Type :=
| Ok (a : A)
| Raise (e : exn).

Arguments Ok {A} a.
Arguments Raise {A} e.

Definition bind {A B : Type} (m : result A) (k : A -> result B) : result B :=
  match m with
  | Ok a => k a
  | Raise e => Raise e
  end.

Notation "x <- m ;; k" := (bind m (fun x => k))
  (at level 61, m at next level, right associativity).
Notation "m ;;; k" := (bind m (fun _ => k))
  (at level 61, right associativity).

Definition is_ok {A : Type} (m : result A) : bool :=
  match m with Ok _ => true | Raise _ => false end.

(** ** Python sequences: indexing, [index], slices *)

Module Py.

(** [l[i]] for a possibly negative index. *)
Definition getitem {A : Type} (l : list A) (i : Z) : result A :=
  let n := Z.of_nat (List.length l) in
  let j := if i <? 0 then i + n else i in
  if (j <? 0) || (n <=? j) then Raise IndexError
  else match nth_error l (Z.to_nat j) with
       | Some x => Ok x
       | None => Raise IndexError
       end.

(** [l.index(x)]: position of the first occurrence, [ValueError] if none. *)
Fixpoint index (l : list Z) (x : Z) : result Z :=
  match l with
  | [] => Raise ValueError
  | y :: t => if y =? x then Ok 0
              else i <- index t x ;; Ok (i + 1)
  end.

Definition clamp (n i : Z) : Z :=
  if i <? 0 then Z.max (i + n) 0 else Z.min i n.

(** [l[lo:hi]] with Python's treatment of negative and large bounds. *)
Definition slice {A : Type} (l : list A) (lo hi : Z) : list A :=
  let n := Z.of_nat (List.length l) in
  let a := clamp n lo in
  let b := clamp n hi in
  firstn (Z.to_nat (b - a)) (skipn (Z.to_nat a) l).

(** Truth value of an optional field ([False]/[None] is falsy). *)
Definition truthy {A : Type} (o : option A) : bool :=
  match o with Some _ => true | None => false end.

(** A [Char] value when it is truthy: set and not the empty string. *)
Definition nonempty (o : option string) : option string :=
  match o with
  | Some EmptyString => None
  | _ => o
  end.

End Py.

(** ** Dates

    A [datetime.date] is its proleptic Gregorian ordinal
    ([date.toordinal()]): day 1 is 0001-01-01, a Monday.  Dates range over
    years 1..9999 and date arithmetic raises [OverflowError] outside. *)

Module Date.

Definition t := Z.

Definition min_ordinal : Z := 1.
Definition max_ordinal : Z := 3652059.
Definition max_delta_days : Z := 999999999.

Definition in_range (d : Z) : bool :=
  (min_ordinal <=? d) && (d <=? max_ordinal).

(** [datetime.timedelta(days=n)] *)
Definition timedelta (n : Z) : result Z :=
  if (- max_delta_days <=? n) && (n <=? max_delta_days) then Ok n
  else Raise OverflowError.

(** [d + delta] *)
Definition add (d : t) (delta : Z) : result t :=
  if in_range (d + delta) then Ok (d + delta) else Raise OverflowError.

(** [d - delta] *)
Definition sub (d : t) (delta : Z) : result t :=
  if in_range (d - delta) then Ok (d - delta) else Raise OverflowError.

(** [record.<field> = fields.Date.to_string(d)]: printing a date and
    storing the text in a Date field.  Dates before [first_printable] are
    refused with [ValueError]: [strftime] rejects a year before 1900 on
    Python 2.7, and where it prints a year below 1000 without padding the
    field refuses the text when it parses it back. *)
Definition to_string (first_printable : t) (d : t) : result t :=
  if d <? first_printable then Raise ValueError else Ok d.

(** [d.weekday()]: Monday is 0, Sunday is 6. *)
Definition weekday (d : t) : Z := (d + 6) mod 7.

Definition is_leap (y : Z) : bool :=
  (y mod 4 =? 0) && (negb (y mod 100 =? 0) || (y mod 400 =? 0)).

Definition days_before_year (y : Z) : Z :=
  let p := y - 1 in p * 365 + p / 4 - p / 100 + p / 400.

Definition days_in_month (y m : Z) : Z :=
  if m =? 2 then (if is_leap y then 29 else 28)
  else if (m =? 4) || (m =? 6) || (m =? 9) || (m =? 11) then 30 else 31.

Fixpoint days_before_month_aux (y : Z) (k : nat) : Z :=
  match k with
  | O => 0
  | S k' => days_before_month_aux y k' + days_in_month y (Z.of_nat k)
  end.

(** Ordinal of the date [y-m-d]. *)
Definition ymd (y m d : Z) : t :=
  days_before_year y + days_before_month_aux y (Z.to_nat (m - 1)) + d.

End Date.

(** ** Data model *)

Inductive mode_t : Type := MODE_NONE | MODE_FIX | MODE_REL.

(** The selection values ['d'], ['w'] and ['date_range'] of [type]. *)
Inductive type_t : Type := TYPE_D | TYPE_W | TYPE_DATE_RANGE.

Inductive source_t : Type :=
  SRC_ACTUALS | SRC_ACTUALS_ALT | SRC_SUMCOL | SRC_CMPCOL.

Inductive sign_t : Type := Plus | Minus.

Definition mode_eqb (a b : mode_t) : bool :=
  match a, b with
  | MODE_NONE, MODE_NONE | MODE_FIX, MODE_FIX | MODE_REL, MODE_REL => true
  | _, _ => false
  end.

Definition source_eqb (a b : source_t) : bool :=
  match a, b with
  | SRC_ACTUALS, SRC_ACTUALS | SRC_ACTUALS_ALT, SRC_ACTUALS_ALT
  | SRC_SUMCOL, SRC_SUMCOL | SRC_CMPCOL, SRC_CMPCOL => true
  | _, _ => false
  end.

(** A row of [mis.report.instance.period.sum]. *)
Record period_sum : Type := {
  sign : sign_t;
  period_to_sum_id : Z
}.

(** A row of [mis.report.instance.period] (stored fields). *)
Record period : Type := {
  id : Z;
  name : string;
  mode : mode_t;
  type : option type_t;
  date_range_type_id : option Z;
  offset : Z;
  duration : Z;
  manual_date_from : option Date.t;
  manual_date_to : option Date.t;
  report_instance_id : Z;
  normalize_factor : Z;
  subkpi_ids : list Z;
  source : source_t;
  source_aml_model_id : option string;
  source_sumcol_ids : list period_sum;
  source_sumcol_accdet : bool;
  source_cmpcol_from_id : option Z;
  source_cmpcol_to_id : option Z
}.

(** A row of [date.range]. *)
Record date_range : Type := {
  dr_id : Z;
  dr_type_id : Z;
  dr_company_id : Z;
  date_start : Date.t;
  date_end : Date.t
}.

Inductive target_move_t : Type := Posted | AllEntries.

(** A [Float] field value: the bit pattern of an IEEE double. *)
Inductive float_t : Type := Float (bits : Z).

(** The fields of [mis.report.param] read through [report_param_id]:
    [ref_model_id.model], [ref_model_id.name], [ref_search_field_id.name],
    [ref_search_field_id.field_description], [ref_value_field_id.name]. *)
Record report_param : Type := {
  ref_model : string;
  ref_model_name : string;
  ref_search_field : string;
  ref_search_field_description : string;
  ref_value_field : string
}.

(** A row of [mis.report.instance.param.value]; [pv_type] and [pv_name] are
    the related fields [type] and [name]. *)
Record param_value : Type := {
  pv_type : option string;
  pv_name : string;
  report_param_id : report_param;
  val_str : option string;
  val_num : float_t;
  val_ref : option string
}.

(** A row of [mis.report.instance] together with its periods. *)
Record instance : Type := {
  inst_id : Z;
  date : option Date.t;
  date_from : option Date.t;
  date_to : option Date.t;
  param_value_ids : list param_value;
  period_ids : list period;
  company_id : Z;
  target_move : target_move_t;
  description_format_single : option string;
  description_format_range : option string
}.

(** Values of the computed fields [date_from], [date_to], [valid] of a
    period. *)
Record dates : Type := {
  p_date_from : option Date.t;
  p_date_to : option Date.t;
  valid : bool
}.

Definition no_dates : dates :=
  {| p_date_from := None; p_date_to := None; valid := false |}.

(** ** Report instance: pivot date and comparison mode *)

Section PivotDate.

(** [fields.Date.context_today(record)] *)
Variable today : Date.t.

Definition _compute_pivot_date (record : instance) : Date.t :=
  match date record with
  | Some d => d
  | None => today
  end.

End PivotDate.

Definition _compute_comparison_mode (inst : instance) : bool :=
  negb (match period_ids inst with [] => true | _ => false end)
  && negb (Py.truthy (date_from inst)).

(** ** Period date resolver *)

Section Resolver.

Variable today : Date.t.

(** The first date [fields.Date.to_string] prints in a form a Date field
    accepts. *)
Variable first_printable : Date.t.

(** The [date.range] table and the two orders its rows are returned in:
    the model's default order, and [order='date_start']. *)
Variable date_range_table : list date_range.
Variable default_order : list date_range -> list date_range.
Variable order_by_date_start : list date_range -> list date_range.

Definition type_matches (ty : option Z) (r : date_range) : bool :=
  match ty with
  | Some t => dr_type_id r =? t
  | None => false
  end.

(** [search([('type_id', '=', ty), ('date_start', '<=', d),
            ('date_end', '>=', d), ('company_id', '=', company)])] *)
Definition search_current (ty : option Z) (d : Date.t) (company : Z)
  : list date_range :=
  default_order
    (filter (fun r => type_matches ty r
                      && (date_start r <=? d) && (date_end r >=? d)
                      && (dr_company_id r =? company))
            date_range_table).

(** [search([('type_id', '=', ty), ('company_id', '=', company)],
           order='date_start')] *)
Definition search_all (ty : option Z) (company : Z) : list date_range :=
  order_by_date_start
    (filter (fun r => type_matches ty r && (dr_company_id r =? company))
            date_range_table).

Definition _compute_dates (report : instance) (record : period)
  : result dates :=
  let d := _compute_pivot_date today report in
  if negb (_compute_comparison_mode report) then
    Ok {| p_date_from := date_from report;
          p_date_to := date_to report;
          valid := Py.truthy (date_from report)
                   && Py.truthy (date_to report) |}
  else if mode_eqb (mode record) MODE_NONE then
    Ok {| p_date_from := None; p_date_to := None; valid := true |}
  else if mode_eqb (mode record) MODE_FIX then
    Ok {| p_date_from := manual_date_from record;
          p_date_to := manual_date_to record;
          valid := Py.truthy (manual_date_from record)
                   && Py.truthy (manual_date_to record) |}
  else match type record with
  | Some TYPE_D =>
      delta <- Date.timedelta (offset record) ;;
      date_from <- Date.add d delta ;;
      delta' <- Date.timedelta (duration record - 1) ;;
      date_to <- Date.add date_from delta' ;;
      record_date_from <- Date.to_string first_printable date_from ;;
      record_date_to <- Date.to_string first_printable date_to ;;
      Ok {| p_date_from := Some record_date_from;
            p_date_to := Some record_date_to; valid := true |}
  | Some TYPE_W =>
      delta0 <- Date.timedelta (Date.weekday d) ;;
      date_from <- Date.sub d delta0 ;;
      delta <- Date.timedelta (offset record * 7) ;;
      date_from <- Date.add date_from delta ;;
      delta' <- Date.timedelta (7 * duration record - 1) ;;
      date_to <- Date.add date_from delta' ;;
      record_date_from <- Date.to_string first_printable date_from ;;
      record_date_to <- Date.to_string first_printable date_to ;;
      Ok {| p_date_from := Some record_date_from;
            p_date_to := Some record_date_to; valid := true |}
  | Some TYPE_DATE_RANGE =>
      let current_periods :=
        search_current (date_range_type_id record) d (company_id report) in
      match current_periods with
      | [] => Ok no_dates
      | _ :: _ =>
          let all_periods :=
            search_all (date_range_type_id record) (company_id report) in
          let all_period_ids := map dr_id all_periods in
          cur <- Py.getitem current_periods 0 ;;
          i <- Py.index all_period_ids (dr_id cur) ;;
          let p := i + offset record in
          if (p >=? 0)
             && (p + duration record
                 <=? Z.of_nat (List.length all_period_ids))
          then
            let periods :=
              Py.slice all_periods p (p + duration record) in
            first <- Py.getitem periods 0 ;;
            last <- Py.getitem periods (-1) ;;
            Ok {| p_date_from := Some (date_start first);
                  p_date_to := Some (date_end last); valid := true |}
          else Ok no_dates
      end
  | None => Ok no_dates
  end.

End Resolver.


(** ** Recordsets and their comparison *)

Inductive pyval : Type :=
| PyInt (n : Z)
| PyRecordset (model : string) (ids : list Z).

Module Recordset.

Record t : Type := { model : string; ids : list Z }.

Definition subset (a b : list Z) : bool :=
  forallb (fun x => existsb (Z.eqb x) b) a.

(** [BaseModel.__eq__]: a recordset equals only a recordset of the same
    model with the same set of ids; compared with anything else (an
    integer id, say) the answer is [False]. *)
Definition eq (self : t) (other : pyval) : bool :=
  match other with
  | PyRecordset m l =>
      String.eqb (model self) m
      && subset (ids self) l && subset l (ids self)
  | PyInt _ => false
  end.

(** [BaseModel.__ne__] *)
Definition ne (self : t) (other : pyval) : bool := negb (eq self other).

(** [bool(recordset)] *)
Definition truthy (self : t) : bool :=
  match ids self with [] => false | _ => true end.

Definition to_pyval (self : t) : pyval :=
  PyRecordset (model self) (ids self).

(** The value of a [Many2one] field. *)
Definition many2one (comodel : string) (o : option Z) : t :=
  {| model := comodel;
     ids := match o with Some i => [i] | None => [] end |}.

End Recordset.

Definition period_model : string := "mis.report.instance.period".
Definition instance_model : string := "mis.report.instance".

(** [browse(i)] followed by a field read: the row with id [i] of the period
    table, [MissingError] when there is none. *)
Fixpoint browse (table : list period) (i : Z) : result period :=
  match table with
  | [] => Raise MissingError
  | p :: t => if id p =? i then Ok p else browse t i
  end.

(** [record.<many2one>.report_instance_id]: empty for an empty recordset. *)
Definition related_instance (table : list period) (ref : option Z)
  : result Recordset.t :=
  match ref with
  | None => Ok (Recordset.many2one instance_model None)
  | Some i =>
      p <- browse table i ;;
      Ok (Recordset.many2one instance_model (Some (report_instance_id p)))
  end.

(** ** Configuration validator *)

Definition _check_period_to_sum (period_id : Z) (row : period_sum)
  (period_name : string) : result unit :=
  if period_id =? period_to_sum_id row then
    Raise (ValidationError
             ("You cannot sum period " ++ period_name ++ " with itself."))
  else Ok tt.

Definition _check_mode_source (self : period) : result unit :=
  match source self with
  | SRC_ACTUALS | SRC_ACTUALS_ALT =>
      if mode_eqb (mode self) MODE_NONE then
        Raise (ValidationError
                 ("A date filter is mandatory for this source in column "
                  ++ name self ++ "."))
      else Ok tt
  | SRC_SUMCOL | SRC_CMPCOL =>
      if negb (mode_eqb (mode self) MODE_NONE) then
        Raise (ValidationError
                 ("No date filter is allowed for this source in column "
                  ++ name self ++ "."))
      else Ok tt
  end.

Definition msg_provide_both (n : string) : string :=
  "Please provide both columns to compare in " ++ n ++ ".".
Definition msg_compared_to_itself (n : string) : string :=
  "Column " ++ n ++ " cannot be compared to itself.".
Definition msg_same_report (n : string) : string :=
  "Columns to compare must belong to the same report in " ++ n.

Definition _check_source_cmpcol (table : list period) (self : period)
  : result unit :=
  if source_eqb (source self) SRC_CMPCOL then
    let from_id := Recordset.many2one period_model
                     (source_cmpcol_from_id self) in
    let to_id := Recordset.many2one period_model
                   (source_cmpcol_to_id self) in
    if negb (Recordset.truthy from_id) || negb (Recordset.truthy to_id) then
      Raise (ValidationError (msg_provide_both (name self)))
    else if Recordset.eq from_id (PyInt (id self))
            || Recordset.eq to_id (PyInt (id self)) then
      Raise (ValidationError (msg_compared_to_itself (name self)))
    else
      let own := Recordset.many2one instance_model
                   (Some (report_instance_id self)) in
      from_inst <- related_instance table (source_cmpcol_from_id self) ;;
      if Recordset.ne from_inst (Recordset.to_pyval own) then
        Raise (ValidationError (msg_same_report (name self)))
      else
        to_inst <- related_instance table (source_cmpcol_to_id self) ;;
        if Recordset.ne to_inst (Recordset.to_pyval own) then
          Raise (ValidationError (msg_same_report (name self)))
        else Ok tt
  else Ok tt.

(** ** Name resolution

    Names bound at module level in [mis_report_instance.py]; a name that is
    neither a local of the running function nor one of these (nor a
    builtin, and no builtin is called [pv]) raises [NameError]. *)

Definition module_globals : list string :=
  [ "datetime"; "logging"; "api"; "fields"; "models"; "_";
    "ValidationError"; "UserError"; "AEP"; "_logger";
    "SRC_ACTUALS"; "SRC_ACTUALS_ALT"; "SRC_CMPCOL"; "SRC_SUMCOL";
    "MODE_NONE"; "MODE_FIX"; "MODE_REL";
    "MisReportInstancePeriodSum"; "MisReportInstancePeriod";
    "MisReportInstanceParamValue"; "MisReportInstance" ].

Definition mem_string (x : string) (l : list string) : bool :=
  existsb (String.eqb x) l.

(** Loading the value bound to [x] from [locals], then from the module. *)
Definition load_name {A : Type} (locals : list (string * A)) (x : string)
  (global : string -> option A) : result A :=
  match find (fun b => String.eqb (fst b) x) locals with
  | Some b => Ok (snd b)
  | None =>
      if mem_string x module_globals then
        match global x with
        | Some v => Ok v
        | None => Raise (NameError x)
        end
      else Raise (NameError x)
  end.

(** Attributes of the [datetime] module, the object the module-level name
    [datetime] is bound to by [import datetime]. *)
Definition datetime_module_attrs : list string :=
  [ "MAXYEAR"; "MINYEAR"; "date"; "datetime"; "time"; "timedelta";
    "tzinfo" ].

(** [module.attr] *)
Definition module_getattr (attrs : list string) (attr : string)
  : result string :=
  if mem_string attr attrs then Ok attr
  else Raise (AttributeError "module" attr).

(** ** Parameter values *)

Definition fmt_opt (o : option string) : string :=
  match o with Some s => s | None => "False" end.

Definition msg_unsupported_type (ty : option string) : string :=
  "Unsupported parameter type: '" ++ fmt_opt ty ++ "'.".

Definition msg_param_not_found (pv : param_value) : string :=
  "Parameter '" ++ pv_name pv ++ "' error. Can't find any "
  ++ ref_model_name (report_param_id pv) ++ " records with "
  ++ ref_search_field_description (report_param_id pv) ++ " equal to '"
  ++ fmt_opt (val_ref pv) ++ "'.".

Definition type_is (pv : param_value) (k : string) : bool :=
  match pv_type pv with
  | Some s => String.eqb s k
  | None => false
  end.

(** The type tag is one of ['str'], ['num'], ['ref']. *)
Definition recognised (pv : param_value) : bool :=
  type_is pv "str" || type_is pv "num" || type_is pv "ref".

Section ParamValues.

(** Rows of the referenced model and the value of a field of such a row. *)
Variable ref_record : Type.
Variable ref_value : Type.

(** [self.env[model].search([(field, '=', value)])] *)
Variable env_search :
  string -> string -> option string -> list ref_record.
(** [record[field]] *)
Variable read_field : ref_record -> string -> ref_value.

(** The records the lookup of a reference parameter finds. *)
Definition lookup_rows (pv : param_value) : list ref_record :=
  env_search (ref_model (report_param_id pv))
    (ref_search_field (report_param_id pv)) (val_ref pv).

Inductive value_t : Type :=
| VStr (s : option string)
| VNum (x : float_t)
| VRef (v : ref_value).

Definition _compute_val_display (pv : param_value)
  (str_of_float : float_t -> string) : result (option string) :=
  if type_is pv "str" then Ok (val_str pv)
  else if type_is pv "num" then Ok (Some (str_of_float (val_num pv)))
  else if type_is pv "ref" then Ok (val_ref pv)
  else Raise (UserError (msg_unsupported_type (pv_type pv))).

(** The locals of [_value] are [self], and [param] and [refs] once
    assigned; in its last branch only [self] is bound. *)
Definition _value (self : param_value) : result value_t :=
  if type_is self "str" then Ok (VStr (val_str self))
  else if type_is self "num" then Ok (VNum (val_num self))
  else if type_is self "ref" then
    let param := report_param_id self in
    let refs := env_search (ref_model param) (ref_search_field param)
                  (val_ref self) in
    match refs with
    | [] => Raise (UserError (msg_param_not_found self))
    | r :: _ => Ok (VRef (read_field r (ref_value_field param)))
    end
  else
    pv <- load_name [("self", self)] "pv" (fun _ => None) ;;
    Raise (UserError (msg_unsupported_type (pv_type pv))).

(** [{pv.name: pv._value() for pv in self.param_value_ids}] *)
Fixpoint _param_vals_of (l : list param_value)
  : result (list (string * value_t)) :=
  match l with
  | [] => Ok []
  | pv :: t =>
      v <- _value pv ;;
      rest <- _param_vals_of t ;;
      Ok ((pv_name pv, v) :: rest)
  end.

Definition _param_vals (self : instance)
  : result (list (string * value_t)) :=
  _param_vals_of (param_value_ids self).

End ParamValues.

(** ** Switching the comparison mode *)

Definition set_dates (record : instance) (df dt : option Date.t)
  : instance :=
  {| inst_id := inst_id record; date := date record;
     date_from := df; date_to := dt;
     param_value_ids := param_value_ids record;
     period_ids := period_ids record;
     company_id := company_id record; target_move := target_move record;
     description_format_single := description_format_single record;
     description_format_range := description_format_range record |}.

Definition set_period_ids (record : instance) (l : list period)
  : instance :=
  {| inst_id := inst_id record; date := date record;
     date_from := date_from record; date_to := date_to record;
     param_value_ids := param_value_ids record;
     period_ids := l;
     company_id := company_id record; target_move := target_move record;
     description_format_single := description_format_single record;
     description_format_range := description_format_range record |}.

(** The row created by [(0, 0, {'name': 'Default', 'type': 'd'})]: the
    other fields take their declared defaults. *)
Definition default_period (new_id inst : Z) : period :=
  {| id := new_id; name := "Default"; mode := MODE_FIX;
     type := Some TYPE_D; date_range_type_id := None;
     offset := -1; duration := 1;
     manual_date_from := None; manual_date_to := None;
     report_instance_id := inst; normalize_factor := 1;
     subkpi_ids := [];
     source := SRC_ACTUALS; source_aml_model_id := None;
     source_sumcol_ids := []; source_sumcol_accdet := false;
     source_cmpcol_from_id := None; source_cmpcol_to_id := None |}.

Section InverseComparisonMode.

(** The clock, had [datetime.now] existed, and the id the database gives
    to the next period row. *)
Variable clock : Date.t.
Variable new_id : Z.

(** [datetime.now()]: [datetime] is the module. *)
Definition datetime_now : result Date.t :=
  module_getattr datetime_module_attrs "now" ;;; Ok clock.

(** [comparison_mode] is the value just written to the field. *)
Definition _inverse_comparison_mode (comparison_mode : bool)
  (record : instance) : result instance :=
  if negb comparison_mode then
    df <- (if negb (Py.truthy (date_from record))
           then now <- datetime_now ;; Ok (Some now)
           else Ok (date_from record)) ;;
    dt <- (if negb (Py.truthy (date_to record))
           then now <- datetime_now ;; Ok (Some now)
           else Ok (date_to record)) ;;
    let record := set_dates record df dt in
    let record := set_period_ids record [] in
    Ok (set_period_ids record
          (period_ids record ++ [default_period new_id (inst_id record)]))
  else
    Ok (set_dates record None None).

End InverseComparisonMode.

(** ** Strings: [str.replace] for a non-empty pattern *)

Fixpoint drop (n : nat) (s : string) : string :=
  match n, s with
  | O, _ => s
  | S n', String _ s' => drop n' s'
  | S _, EmptyString => EmptyString
  end.

Fixpoint replace_aux (fuel : nat) (old new s : string) : string :=
  match fuel with
  | O => s
  | S fuel' =>
      match s with
      | EmptyString => EmptyString
      | String c s' =>
          if String.prefix old s
          then new ++ replace_aux fuel' old new (drop (String.length old) s)
          else String c (replace_aux fuel' old new s')
      end
  end.

Definition str_replace (old new s : string) : string :=
  replace_aux (String.length s) old new s.

(** ** Column builder and matrix orchestration *)

(** A period record together with its computed fields. *)
Record column : Type := {
  col_period : period;
  col_dates : dates
}.

Definition msg_missing_dates (n : string) : string :=
  "Column " ++ n ++ " with actuals source must have from/to dates.".

Definition _subst_description_dates (description_format df dt : string)
  : string :=
  fold_left (fun description tv => str_replace (fst tv) (snd tv) description)
            [("<<from>>", df); ("<<to>>", dt)] description_format.

Definition opt_date_eqb (a b : option Date.t) : bool :=
  match a, b with
  | Some x, Some y => x =? y
  | None, None => true
  | _, _ => false
  end.

(** An actuals-sourced column one of whose resolved dates is missing. *)
Definition lacks_dates (c : column) : Prop :=
  (source (col_period c) = SRC_ACTUALS
   \/ source (col_period c) = SRC_ACTUALS_ALT)
  /\ (p_date_from (col_dates c) = None \/ p_date_to (col_dates c) = None).

Section Engine.

(** The report template ([mis.report]), the expression processor and the
    KPI matrix are collaborators outside this file. *)
Variable kpi_matrix : Type.
Variable aep : Type.
Variable matrix_dict : Type.

Variable ref_record : Type.
Variable ref_value : Type.
Variable env_search :
  string -> string -> option string -> list ref_record.
Variable read_field : ref_record -> string -> ref_value.

(** The [mis_param_vals] entry of the context. *)
Definition context : Type := list (string * value_t ref_value).

Variable _prepare_aep : Z -> result aep.
Variable prepare_kpi_matrix : result kpi_matrix.
(** [declare_and_compute_period(kpi_matrix, col_key, label, description,
    aep, date_from, date_to, target_move, subkpis, ..., aml_model)] *)
Variable declare_and_compute_period :
  context -> kpi_matrix -> Z -> string -> option string -> aep ->
  Date.t -> Date.t -> option target_move_t -> list Z -> option string ->
  result kpi_matrix.
Variable declare_sum :
  kpi_matrix -> Z -> list (sign_t * Z) -> string -> option string ->
  bool -> result kpi_matrix.
Variable declare_comparison :
  kpi_matrix -> Z -> option Z -> option Z -> string -> option string ->
  result kpi_matrix.
Variable compute_comparisons : kpi_matrix -> result kpi_matrix.
Variable compute_sums : kpi_matrix -> result kpi_matrix.
Variable as_dict : kpi_matrix -> result matrix_dict.
Variable _format_date : instance -> Date.t -> result string.

Definition _add_column_actuals (ctx : context) (self : instance)
  (a : aep) (km : kpi_matrix) (c : column)
  (label : string) (description : option string) : result kpi_matrix :=
  match p_date_from (col_dates c), p_date_to (col_dates c) with
  | Some df, Some dt =>
      declare_and_compute_period ctx km (id (col_period c)) label
        description a df dt (Some (target_move self))
        (subkpi_ids (col_period c)) None
  | _, _ =>
      Raise (UserError (msg_missing_dates (name (col_period c))))
  end.

Definition _add_column_actuals_alt (ctx : context) (self : instance)
  (a : aep) (km : kpi_matrix) (c : column)
  (label : string) (description : option string) : result kpi_matrix :=
  match p_date_from (col_dates c), p_date_to (col_dates c) with
  | Some df, Some dt =>
      declare_and_compute_period ctx km (id (col_period c)) label
        description a df dt None
        (subkpi_ids (col_period c))
        (source_aml_model_id (col_period c))
  | _, _ =>
      Raise (UserError (msg_missing_dates (name (col_period c))))
  end.

Definition _add_column_sumcol (km : kpi_matrix) (c : column)
  (label : string) (description : option string) : result kpi_matrix :=
  declare_sum km (id (col_period c))
    (map (fun s => (sign s, period_to_sum_id s))
         (source_sumcol_ids (col_period c)))
    label description (source_sumcol_accdet (col_period c)).

Definition _add_column_cmpcol (km : kpi_matrix) (c : column)
  (label : string) (description : option string) : result kpi_matrix :=
  declare_comparison km (id (col_period c))
    (source_cmpcol_to_id (col_period c))
    (source_cmpcol_from_id (col_period c))
    label description.

Definition _add_column (ctx : context) (self : instance) (a : aep)
  (km : kpi_matrix) (c : column) (label : string)
  (description : option string) : result kpi_matrix :=
  match source (col_period c) with
  | SRC_ACTUALS => _add_column_actuals ctx self a km c label description
  | SRC_ACTUALS_ALT =>
      _add_column_actuals_alt ctx self a km c label description
  | SRC_SUMCOL => _add_column_sumcol km c label description
  | SRC_CMPCOL => _add_column_cmpcol km c label description
  end.

(** [date and self._format_date(date) or ''] *)
Definition format_or_empty (self : instance) (d : option Date.t)
  : result string :=
  match d with
  | Some x => _format_date self x
  | None => Ok ""
  end.

(** The description of a column, as computed in the loop of
    [_compute_matrix]. *)
Definition describe (self : instance) (c : column)
  : result (option string) :=
  let ds := col_dates c in
  date_from <- format_or_empty self (p_date_from ds) ;;
  date_to <- format_or_empty self (p_date_to ds) ;;
  if mode_eqb (mode (col_period c)) MODE_NONE then Ok None
  else if opt_date_eqb (p_date_from ds) (p_date_to ds)
          && Py.truthy (p_date_from ds) then
    match Py.nonempty (description_format_single self),
          p_date_from ds with
    | Some fmt, _ =>
        Ok (Some (_subst_description_dates fmt date_from date_to))
    | None, Some d => s <- _format_date self d ;; Ok (Some s)
    | None, None => Ok None
    end
  else if Py.truthy (p_date_from ds) && Py.truthy (p_date_to ds) then
    match Py.nonempty (description_format_range self) with
    | Some fmt =>
        Ok (Some (_subst_description_dates fmt date_from date_to))
    | None => Ok (Some ("from " ++ date_from ++ " to " ++ date_to)%string)
    end
  else Ok None.

(** The loop [for period in self.period_ids] of [_compute_matrix]. *)
Fixpoint build_columns (ctx : context) (self : instance) (a : aep)
  (km : kpi_matrix) (cols : list column) : result kpi_matrix :=
  match cols with
  | [] => Ok km
  | c :: rest =>
      description <- describe self c ;;
      km' <- _add_column ctx self a km c (name (col_period c))
               description ;;
      build_columns ctx self a km' rest
  end.

Definition _compute_matrix (ctx : context) (self : instance)
  (cols : list column) : result kpi_matrix :=
  a <- _prepare_aep (company_id self) ;;
  km <- prepare_kpi_matrix ;;
  km <- build_columns ctx self a km cols ;;
  km <- compute_comparisons km ;;
  compute_sums km.

(** [compute]; [cols] are the records of [self.period_ids] with their
    computed fields. *)
Definition compute (self : instance) (cols : list column)
  : result matrix_dict :=
  ctx <- _param_vals env_search read_field self ;;
  km <- _compute_matrix ctx self cols ;;
  as_dict km.

End Engine.

(** ** Drill-down *)

(** The argument dictionary of [drilldown]; a missing key reads as
    [None]. *)
Record drilldown_arg : Type := {
  arg_period_id : option Z;
  arg_expr : option string;
  arg_account_id : option Z
}.

(** Truth value of an optional integer: [None] and [0] are falsy. *)
Definition int_truthy (o : option Z) : bool :=
  match o with
  | Some n => negb (n =? 0)
  | None => false
  end.

(** [record.report_instance_id] followed by a field read: the row with
    id [i] of the instance table, [MissingError] when there is none. *)
Fixpoint browse_instance (table : list instance) (i : Z) : result instance :=
  match table with
  | [] => Raise MissingError
  | r :: t => if inst_id r =? i then Ok r else browse_instance t i
  end.

Section Drilldown.

(** Modelled from the spec: the Expression Processor of [aep.py], which
    is not part of this file.  Its contract is [prepare(scope)],
    [parse(expr)], [done_parsing()], [has_account_var(expr) -> bool] and
    [filter_for(expr, date_from, date_to, posted_filter|none, dimension?)
    -> predicate]. *)
Variable aep : Type.
Variable leaf : Type.
Variable AEP : Z -> aep.
Variable has_account_var : string -> bool.
Variable parse_expr : aep -> string -> aep.
Variable done_parsing : aep -> aep.
Variable get_aml_domain_for_expr :
  aep -> string -> option Date.t -> option Date.t ->
  option target_move_t -> option Z -> list leaf.

(** What the computed date fields of a period are resolved from: the
    clock, the first printable date, the [date.range] table and its
    orders, the period table and the instance table. *)
Variable today : Date.t.
Variable first_printable : Date.t.
Variable date_range_table : list date_range.
Variable default_order : list date_range -> list date_range.
Variable order_by_date_start : list date_range -> list date_range.
Variable period_table : list period.
Variable instance_table : list instance.

(** Reading [period.date_from] and [period.date_to] of
    [browse(period_id)]: the record is fetched and [_compute_dates] runs
    on it and on its report instance. *)
Definition read_dates (period_id : Z) : result (period * dates) :=
  period <- browse period_table period_id ;;
  report <- browse_instance instance_table (report_instance_id period) ;;
  ds <- _compute_dates today first_printable date_range_table default_order
          order_by_date_start report period ;;
  Ok (period, ds).

(** The hook of the period model; it returns the empty domain. *)
Definition _get_additional_move_line_filter (self : period) : list leaf :=
  [].

Record action : Type := {
  act_name : string;
  act_domain : list leaf;
  act_type : string;
  res_model : option string;
  view_type : string;
  view_mode : string;
  target : string
}.

(** The result is [None] for the [False] the method returns when no
    drill-down is available. *)
Definition drilldown (self : instance) (arg : drilldown_arg)
  : result (option action) :=
  let period_id := arg_period_id arg in
  let expr := arg_expr arg in
  let account_id := arg_account_id arg in
  match period_id, Py.nonempty expr with
  | Some pid, Some e =>
      if int_truthy period_id && has_account_var e then
        let a := AEP (company_id self) in
        let a := parse_expr a e in
        let a := done_parsing a in
        pd <- read_dates pid ;;
        let period := fst pd in
        let domain :=
          get_aml_domain_for_expr a e
            (p_date_from (snd pd)) (p_date_to (snd pd))
            (if source_eqb (source period) SRC_ACTUALS
             then Some (target_move self) else None)
            account_id in
        let domain := domain ++ _get_additional_move_line_filter period in
        let aml_model_name :=
          if source_eqb (source period) SRC_ACTUALS_ALT
          then source_aml_model_id period
          else Some "account.move.line" in
        Ok (Some {| act_name := (e ++ " - " ++ name period)%string;
                    act_domain := domain;
                    act_type := "ir.actions.act_window";
                    res_model := aml_model_name;
                    view_type := "list";
                    view_mode := "list";
                    target := "current" |})
      else Ok None
  | _, _ => Ok None
  end.

End Drilldown.

(** ** Database constraints of the period table

    The declarations of [_sql_constraints], read as conditions on the
    rows of the table. *)

Definition same_key (p q : period) : bool :=
  String.eqb (name p) (name q)
  && (report_instance_id p =? report_instance_id q).

(** [unique(name, report_instance_id)] *)
Fixpoint name_unique (table : list period) : bool :=
  match table with
  | [] => true
  | p :: t => negb (existsb (same_key p) t) && name_unique t
  end.

(** The three entries of [_sql_constraints], a violation being reported
    with the message of the entry. *)
Definition _sql_constraints (table : list period) : result unit :=
  if negb (forallb (fun p => duration p >? 0) table) then
    Raise (ValidationError "Wrong duration, it must be positive!")
  else if negb (forallb (fun p => normalize_factor p >? 0) table) then
    Raise (ValidationError "Wrong normalize factor, it must be positive!")
  else if negb (name_unique table) then
    Raise (ValidationError "Period name should be unique by report")
  else Ok tt.

(** No two rows of the table belong to one instance and carry one name. *)
Definition names_distinct (table : list period) : Prop :=
  forall i j p q,
    nth_error table i = Some p -> nth_error table j = Some q ->
    i <> j -> report_instance_id p = report_instance_id q ->
    name p <> name q.

(** ** Sample records *)

Module Sample.

Definition mk_period (i : Z) (n : string) (m : mode_t)
  (ty : option type_t) (off dur : Z) (src : source_t) (inst : Z)
  : period :=
  {| id := i; name := n; mode := m; type := ty;
     date_range_type_id := Some 1; offset := off; duration := dur;
     manual_date_from := None; manual_date_to := None;
     report_instance_id := inst; normalize_factor := 1;
     subkpi_ids := [];
     source := src; source_aml_model_id := None;
     source_sumcol_ids := []; source_sumcol_accdet := false;
     source_cmpcol_from_id := None; source_cmpcol_to_id := None |}.

Definition mk_cmpcol (i : Z) (n : string) (inst : Z)
  (from_id to_id : option Z) : period :=
  {| id := i; name := n; mode := MODE_NONE; type := None;
     date_range_type_id := None; offset := -1; duration := 1;
     manual_date_from := None; manual_date_to := None;
     report_instance_id := inst; normalize_factor := 1;
     subkpi_ids := [];
     source := SRC_CMPCOL; source_aml_model_id := None;
     source_sumcol_ids := []; source_sumcol_accdet := false;
     source_cmpcol_from_id := from_id; source_cmpcol_to_id := to_id |}.

Definition mk_instance (i : Z) (d df dt : option Date.t)
  (pvs : list param_value) (ps : list period) : instance :=
  {| inst_id := i; date := d; date_from := df; date_to := dt;
     param_value_ids := pvs; period_ids := ps;
     company_id := 1; target_move := Posted;
     description_format_single := None;
     description_format_range := None |}.

(** The first printable date of Python 2.7, 1900-01-01. *)
Definition first_printable : Date.t := Date.ymd 1900 1 1.

(** 2024-03-15, a Friday. *)
Definition pivot : Date.t := Date.ymd 2024 3 15.

Definition jan_1 : Date.t := Date.ymd 2024 1 1.
Definition dec_31 : Date.t := Date.ymd 2024 12 31.

Definition p_none : period :=
  mk_period 1 "Total" MODE_NONE (Some TYPE_W) 0 1 SRC_SUMCOL 1.

(** An instance with a fixed date range: not in comparison mode. *)
Definition fixed_instance : instance :=
  mk_instance 1 (Some pivot) (Some jan_1) (Some dec_31) [] [p_none].

(** An instance with periods and no fixed range: in comparison mode. *)
Definition cmp_instance (ps : list period) : instance :=
  mk_instance 1 (Some pivot) None None [] ps.

(** Periods and only [date_to], respectively only [date_from], set. *)
Definition lone_date_to : instance :=
  mk_instance 1 (Some pivot) None (Some dec_31) [] [p_none].
Definition lone_date_from : instance :=
  mk_instance 1 (Some pivot) (Some jan_1) None [] [p_none].

(** A column on an alternative source for which no source model is
    set, with fixed dates. *)
Definition p_alt : period :=
  mk_period 6 "Alt" MODE_FIX None 0 1 SRC_ACTUALS_ALT 1.

Definition p_week (off dur : Z) : period :=
  mk_period 2 "Week" MODE_REL (Some TYPE_W) off dur SRC_ACTUALS 1.

Definition p_range (off dur : Z) : period :=
  mk_period 3 "Quarter" MODE_REL (Some TYPE_DATE_RANGE) off dur
    SRC_ACTUALS 1.

Definition quarter (i : Z) (m1 d1 m2 d2 : Z) : date_range :=
  {| dr_id := i; dr_type_id := 1; dr_company_id := 1;
     date_start := Date.ymd 2024 m1 d1; date_end := Date.ymd 2024 m2 d2 |}.

Definition quarters : list date_range :=
  [ quarter 10 1 1 3 31; quarter 11 4 1 6 30;
    quarter 12 7 1 9 30; quarter 13 10 1 12 31 ].

(** A compare column naming itself in both slots. *)
Definition self_compare : period :=
  mk_cmpcol 7 "Delta" 1 (Some 7) (Some 7).

(** A parameter value whose type is none of the three. *)
Definition pv_bool : param_value :=
  {| pv_type := Some "bool"; pv_name := "flag";
     report_param_id :=
       {| ref_model := ""; ref_model_name := "";
          ref_search_field := ""; ref_search_field_description := "";
          ref_value_field := "" |};
     val_str := None; val_num := Float 0; val_ref := None |}.

Definition col (p : period) (df dt : option Date.t) (v : bool) : column :=
  {| col_period := p;
     col_dates := {| p_date_from := df; p_date_to := dt; valid := v |} |}.

End Sample.

(** Whether [sub] occurs in [s]. *)
Fixpoint contains (sub s : string) : bool :=
  String.prefix sub s
  || match s with
     | EmptyString => false
     | String _ s' => contains sub s'
     end.

(** ** A recording accumulator

    Collaborators that never fail: the matrix is the list of the column
    ids declared so far, dates are printed as nothing. *)

Module Recorder.

Definition matrix : Type := list Z.

Definition declare_and_compute_period
  (ctx : list (string * value_t unit)) (km : matrix) (col : Z)
  (label : string) (description : option string) (a : unit)
  (df dt : Date.t) (tm : option target_move_t) (subkpis : list Z)
  (aml_model : option string) : result matrix :=
  Ok (km ++ [col]).

Definition declare_sum (km : matrix) (col : Z) (l : list (sign_t * Z))
  (label : string) (description : option string) (accdet : bool)
  : result matrix :=
  Ok (km ++ [col]).

Definition declare_comparison (km : matrix) (col : Z) (to_id from_id : option Z)
  (label : string) (description : option string) : result matrix :=
  Ok (km ++ [col]).

Definition run (self : instance) (cols : list column) : result matrix :=
  compute (fun _ _ _ => @nil unit) (fun _ _ => tt)
    (fun _ => Ok tt) (Ok []) declare_and_compute_period declare_sum
    declare_comparison (fun km => Ok km) (fun km => Ok km)
    (fun km => Ok km) (fun _ _ => Ok "") self cols.

(** Two actuals columns, both without [date_to]. *)
Definition q1 : column :=
  Sample.col (Sample.mk_period 1 "Q1" MODE_FIX None 0 1 SRC_ACTUALS 1)
    (Some Sample.jan_1) None false.
Definition q2 : column :=
  Sample.col (Sample.mk_period 2 "Q2" MODE_FIX None 0 1 SRC_ACTUALS 1)
    (Some Sample.jan_1) None false.

Definition two_columns : instance :=
  Sample.cmp_instance [col_period q1; col_period q2].

End Recorder.

(** The sources that read move lines. *)
Definition is_actuals (s : source_t) : bool :=
  match s with
  | SRC_ACTUALS | SRC_ACTUALS_ALT => true
  | SRC_SUMCOL | SRC_CMPCOL => false
  end.

(** ** Onchange handlers *)

Definition set_mode (self : period) (m : mode_t) : period :=
  {| id := id self; name := name self; mode := m; type := type self;
     date_range_type_id := date_range_type_id self;
     offset := offset self; duration := duration self;
     manual_date_from := manual_date_from self;
     manual_date_to := manual_date_to self;
     report_instance_id := report_instance_id self;
     normalize_factor := normalize_factor self;
     subkpi_ids := subkpi_ids self;
     source := source self;
     source_aml_model_id := source_aml_model_id self;
     source_sumcol_ids := source_sumcol_ids self;
     source_sumcol_accdet := source_sumcol_accdet self;
     source_cmpcol_from_id := source_cmpcol_from_id self;
     source_cmpcol_to_id := source_cmpcol_to_id self |}.

Definition _onchange_source (self : period) : period :=
  match source self with
  | SRC_SUMCOL | SRC_CMPCOL => set_mode self MODE_NONE
  | SRC_ACTUALS | SRC_ACTUALS_ALT => self
  end.

(** The three fields the date-range handlers of both models work on:
    [date_range_id] and the two dates ([manual_date_from]/[manual_date_to]
    on a period, [date_from]/[date_to] on an instance). *)
Record range_fields : Type := {
  date_range_id : option date_range;
  rf_date_from : option Date.t;
  rf_date_to : option Date.t
}.

Definition _onchange_date_range (self : range_fields) : range_fields :=
  match date_range_id self with
  | Some r =>
      {| date_range_id := date_range_id self;
         rf_date_from := Some (date_start r);
         rf_date_to := Some (date_end r) |}
  | None => self
  end.

Definition _onchange_dates (self : range_fields) : range_fields :=
  match date_range_id self with
  | Some r =>
      if negb (opt_date_eqb (rf_date_from self) (Some (date_start r)))
         || negb (opt_date_eqb (rf_date_to self) (Some (date_end r)))
      then {| date_range_id := None;
              rf_date_from := rf_date_from self;
              rf_date_to := rf_date_to self |}
      else self
  | None => self
  end.

(** ** Synchronising parameter values with the template *)

(** A parameter of the report template ([report_id.param_ids]). *)
Record template_param : Type := {
  tp_id : Z;
  tp_type : option string;
  tp_name : string;
  tp_fields : report_param
}.

(** A parameter value row with the id of its [report_param_id]. *)
Record param_row : Type := {
  row_param_id : Z;
  row_value : param_value
}.

(** The row created from [{'report_param_id': param.id}]. *)
Definition new_param_row (param : template_param) : param_row :=
  {| row_param_id := tp_id param;
     row_value :=
       {| pv_type := tp_type param; pv_name := tp_name param;
          report_param_id := tp_fields param;
          val_str := None; val_num := Float 0; val_ref := None |} |}.

(** [self.param_value_ids.filtered(lambda pv: pv.report_param_id == param)]
    is not empty. *)
Definition has_row (rows : list param_row) (param : template_param) : bool :=
  existsb (fun pv => row_param_id pv =? tp_id param) rows.

Definition _synch_params (rows : list param_row)
  (param_ids : list template_param) : list param_row :=
  let new_param_vals :=
    map new_param_row
      (filter (fun param => negb (has_row rows param)) param_ids) in
  match new_param_vals with
  | [] => rows
  | _ :: _ => rows ++ new_param_vals
  end.

(** ** Parameter dictionaries

    The items of a dictionary in insertion order; a later item with the
    same key replaces an earlier one. *)
Fixpoint dict_get {V : Type} (d : list (string * V)) (k : string)
  : option V :=
  match d with
  | [] => None
  | (k', v) :: t =>
      match dict_get t k with
      | Some v' => Some v'
      | None => if String.eqb k' k then Some v else None
      end
  end.

(** ** Temporary reports *)

Module Datetime.

(** A [datetime.datetime]: microseconds since 0001-01-01 00:00:00. *)
Definition t := Z.

Definition us_per_second : Z := 1000000.
Definition us_per_hour : Z := 3600 * us_per_second.
Definition us_per_day : Z := 24 * us_per_hour.

Definition in_range (x : Z) : bool :=
  (0 <=? x) && (x <? Date.max_ordinal * us_per_day).


(** [x - delta] *)
Definition sub (x : t) (delta : Z) : result t :=
  if in_range (x - delta) then Ok (x - delta) else Raise OverflowError.

(** [fields.Datetime.to_string]: the value to the second. *)
Definition to_string (x : t) : t := x - x mod us_per_second.

End Datetime.

(** The fields of a report instance the clean-up reads. *)
Record report_row : Type := {
  rr_id : Z;
  temporary : bool;
  write_date : Datetime.t
}.


(** ** Sample parameters *)

Module SampleParams.

Definition partner_param : report_param :=
  {| ref_model := "res.partner"; ref_model_name := "Partner";
     ref_search_field := "ref";
     ref_search_field_description := "Internal Reference";
     ref_value_field := "id" |}.

Definition mk (ty n : string) (s : option string) (r : option string)
  : param_value :=
  {| pv_type := Some ty; pv_name := n; report_param_id := partner_param;
     val_str := s; val_num := Float 0; val_ref := r |}.

Definition currency : param_value := mk "str" "currency" (Some "EUR") None.
Definition partner : param_value := mk "ref" "partner" None (Some "ACME").
Definition nobody : param_value := mk "ref" "nobody" None (Some "NONE").

(** A lookup that knows one partner, with id 42. *)
Definition env_search (model field : string) (v : option string) : list Z :=
  match v with
  | Some s => if String.eqb s "ACME" then [42] else []
  | None => []
  end.

Definition read_field (r : Z) (field : string) : Z := r.

End SampleParams.

(** ** Sample reports *)

Module SampleReports.

Definition day (n : Z) : Datetime.t := n * Datetime.us_per_day.

(** An old temporary report, an old saved one, a fresh temporary one. *)
Definition table : list report_row :=
  [ {| rr_id := 1; temporary := true; write_date := day 100 |};
    {| rr_id := 2; temporary := false; write_date := day 100 |};
    {| rr_id := 3; temporary := true; write_date := day 200 |} ].

End SampleReports.

(** * Properties *)

(** ** Small facts about the result monad and Python sequences *)

Lemma bind_ok {A B : Type} (m : result A) (k : A -> result B) (b : B) :
  bind m k = Ok b -> exists a, m = Ok a /\ k a = Ok b.
Proof.
  destruct m as [a|e]; simpl; intros H; [eauto | discriminate].
Qed.

Lemma bind_raise_never_ok {A B : Type} (e : exn) (k : A -> result B) :
  is_ok (bind (Raise e) k) = false.
Proof. reflexivity. Qed.

(** ** Period date resolver *)

Section ResolverFacts.

Variable today : Date.t.
Variable first_printable : Date.t.
Variable date_range_table : list date_range.
Variable default_order : list date_range -> list date_range.
Variable order_by_date_start : list date_range -> list date_range.

Let resolve :=
  _compute_dates today first_printable date_range_table default_order
    order_by_date_start.

(** C1 (as amended).  In an instance that is in comparison mode, a period
    with [mode = NoDateFilter] resolves to [valid = true] with both dates
    absent, whatever its type, offset and duration. *)
Theorem no_date_filter_in_comparison_mode (report : instance)
  (record : period) :
  _compute_comparison_mode report = true ->
  mode record = MODE_NONE ->
  resolve report record
  = Ok {| p_date_from := None; p_date_to := None; valid := true |}.
Proof.
  intros Hcmp Hmode. unfold resolve, _compute_dates.
  rewrite Hcmp, Hmode. reflexivity.
Qed.

(** Outside comparison mode the period's own fields are not consulted:
    the instance's range is copied. *)
Lemma fixed_range_is_copied (report : instance) (record : period) :
  _compute_comparison_mode report = false ->
  resolve report record
  = Ok {| p_date_from := date_from report;
          p_date_to := date_to report;
          valid := Py.truthy (date_from report)
                   && Py.truthy (date_to report) |}.
Proof.
  intros Hcmp. unfold resolve, _compute_dates. rewrite Hcmp. reflexivity.
Qed.

End ResolverFacts.

(** C1, witness: the period [p_none] inside a comparison-mode instance. *)
Lemma no_date_filter_in_comparison_mode_witness :
  _compute_comparison_mode (Sample.cmp_instance [Sample.p_none]) = true
  /\ mode Sample.p_none = MODE_NONE
  /\ _compute_dates 0 Sample.first_printable [] (fun l => l) (fun l => l)
       (Sample.cmp_instance [Sample.p_none]) Sample.p_none
     = Ok {| p_date_from := None; p_date_to := None; valid := true |}.
Proof.
  split; [reflexivity | split; [reflexivity |]].
  apply (no_date_filter_in_comparison_mode 0 Sample.first_printable []
      (fun l => l) (fun l => l)
           (Sample.cmp_instance [Sample.p_none]) Sample.p_none);
    reflexivity.
Defined.

(** C1, counterexample: a [NoDateFilter] period of an instance with a fixed
    range (hence not in comparison mode) inherits the instance's dates. *)
Lemma no_date_filter_counterexample :
  mode Sample.p_none = MODE_NONE
  /\ _compute_dates 0 Sample.first_printable [] (fun l => l) (fun l => l)
       Sample.fixed_instance Sample.p_none
     = Ok {| p_date_from := Some (Date.ymd 2024 1 1);
             p_date_to := Some (Date.ymd 2024 12 31);
             valid := true |}
  /\ _compute_dates 0 Sample.first_printable [] (fun l => l) (fun l => l)
       Sample.fixed_instance Sample.p_none
     <> Ok {| p_date_from := None; p_date_to := None; valid := true |}.
Proof.
  split; [reflexivity | split; [reflexivity | discriminate]].
Qed.

(** ** Weeks *)

Lemma weekday_range (d : Z) : 0 <= Date.weekday d < 7.
Proof. unfold Date.weekday. apply Z.mod_pos_bound. lia. Qed.



Lemma monday_in_range (d : Z) :
  Date.in_range d = true -> Date.in_range (d - Date.weekday d) = true.
Proof.
  unfold Date.in_range, Date.min_ordinal, Date.max_ordinal.
  intros H. apply andb_true_iff in H. destruct H as [H1 H2].
  apply Z.leb_le in H1. apply Z.leb_le in H2.
  pose proof (weekday_range d) as Hw.
  assert (Hq : 1 <= (d + 6) / 7).
  { apply Z.div_le_lower_bound; lia. }
  pose proof (Z.div_mod (d + 6) 7 ltac:(lia)) as Hdm.
  unfold Date.weekday in *.
  apply andb_true_iff. split; apply Z.leb_le; lia.
Qed.

Lemma timedelta_ok (n : Z) :
  - Date.max_delta_days <= n <= Date.max_delta_days ->
  Date.timedelta n = Ok n.
Proof.
  intros [H1 H2]. unfold Date.timedelta.
  apply Z.leb_le in H1. apply Z.leb_le in H2. rewrite H1, H2. reflexivity.
Qed.

Lemma to_string_ok (first_printable d : Z) :
  first_printable <= d -> Date.to_string first_printable d = Ok d.
Proof.
  intros H. unfold Date.to_string.
  replace (d <? first_printable) with false
    by (symmetry; apply Z.ltb_ge; exact H).
  reflexivity.
Qed.

Lemma in_range_bounds (d : Z) :
  Date.in_range d = true -> 1 <= d <= 3652059.
Proof.
  unfold Date.in_range, Date.min_ordinal, Date.max_ordinal. intros H.
  apply andb_true_iff in H. destruct H as [H1 H2].
  apply Z.leb_le in H1. apply Z.leb_le in H2. lia.
Qed.

Section WeekFacts.

Variable today : Date.t.
Variable first_printable : Date.t.
Variable date_range_table : list date_range.
Variable default_order : list date_range -> list date_range.
Variable order_by_date_start : list date_range -> list date_range.


End WeekFacts.



(** ** Comparison mode *)

(** C5 (as amended).  [comparison_mode] is true exactly when the instance
    has at least one period and its [date_from] is unset; [date_to] is not
    consulted. *)
Theorem comparison_mode_iff (inst : instance) :
  _compute_comparison_mode inst = true
  <-> period_ids inst <> [] /\ date_from inst = None.
Proof.
  unfold _compute_comparison_mode.
  destruct (period_ids inst) as [|p ps], (date_from inst) as [d|];
    simpl; split.
  - discriminate.
  - intros [H _]. congruence.
  - discriminate.
  - intros [H _]. congruence.
  - discriminate.
  - intros [_ H]. discriminate.
  - intros _. split; [discriminate | reflexivity].
  - reflexivity.
Qed.

(** C5, counterexample: with periods and only [date_to] set the override is
    not absent, yet the flag is true; with periods and only [date_from] set
    there is no complete fixed range, yet the flag is false. *)
Lemma comparison_mode_counterexample :
  (period_ids Sample.lone_date_to <> []
   /\ date_to Sample.lone_date_to <> None
   /\ _compute_comparison_mode Sample.lone_date_to = true)
  /\ (period_ids Sample.lone_date_from <> []
      /\ date_to Sample.lone_date_from = None
      /\ _compute_comparison_mode Sample.lone_date_from = false).
Proof.
  repeat split; discriminate.
Qed.

(** ** Date-range catalog *)

Lemma index_of_member (l : list Z) (x : Z) :
  In x l ->
  exists i, Py.index l x = Ok i
            /\ 0 <= i < Z.of_nat (List.length l)
            /\ nth_error l (Z.to_nat i) = Some x.
Proof.
  induction l as [|y t IH]; intros Hin; [destruct Hin|].
  cbn [Py.index]. destruct (y =? x) eqn:E.
  - apply Z.eqb_eq in E. subst y. exists 0.
    cbn [List.length]. repeat split; lia.
  - assert (Hx : In x t).
    { destruct Hin as [->|H]; [rewrite Z.eqb_refl in E; discriminate|exact H]. }
    destruct (IH Hx) as (i & Hi & Hr & Hn).
    exists (i + 1). rewrite Hi. cbn [bind List.length].
    repeat split; try lia.
    replace (Z.to_nat (i + 1)) with (S (Z.to_nat i)) by lia.
    exact Hn.
Qed.

Lemma getitem_nth {A : Type} (l : list A) (i : Z) (x : A) :
  0 <= i -> nth_error l (Z.to_nat i) = Some x -> Py.getitem l i = Ok x.
Proof.
  intros Hi Hn. unfold Py.getitem.
  assert (Hlt : (Z.to_nat i < List.length l)%nat).
  { apply nth_error_Some. congruence. }
  destruct (i <? 0) eqn:E; [apply Z.ltb_lt in E; lia|].
  rewrite E.
  replace (Z.of_nat (List.length l) <=? i) with false
    by (symmetry; apply Z.leb_gt; lia).
  cbn [orb]. rewrite Hn. reflexivity.
Qed.

Lemma getitem_last {A : Type} (l : list A) (x : A) :
  nth_error l (List.length l - 1)%nat = Some x ->
  Py.getitem l (-1) = Ok x.
Proof.
  intros Hn. unfold Py.getitem.
  assert (Hlt : (List.length l - 1 < List.length l)%nat).
  { apply nth_error_Some. congruence. }
  cbn [Z.ltb Z.compare].
  replace (-1 + Z.of_nat (List.length l) <? 0) with false
    by (symmetry; apply Z.ltb_ge; lia).
  replace (Z.of_nat (List.length l) <=? -1 + Z.of_nat (List.length l))
    with false by (symmetry; apply Z.leb_gt; lia).
  cbn [orb].
  replace (Z.to_nat (-1 + Z.of_nat (List.length l)))
    with (List.length l - 1)%nat by lia.
  rewrite Hn. reflexivity.
Qed.

Lemma slice_window {A : Type} (l : list A) (p n : Z) :
  0 <= p -> 0 <= n -> p + n <= Z.of_nat (List.length l) ->
  Py.slice l p (p + n) = firstn (Z.to_nat n) (skipn (Z.to_nat p) l).
Proof.
  intros Hp Hn Hle. unfold Py.slice, Py.clamp.
  replace (p <? 0) with false by (symmetry; apply Z.ltb_ge; lia).
  replace (p + n <? 0) with false by (symmetry; apply Z.ltb_ge; lia).
  rewrite !Z.min_l by lia.
  replace (p + n - p) with n by lia. reflexivity.
Qed.

Lemma window_ends {A : Type} (l : list A) (p n : Z) :
  0 <= p -> 0 < n -> p + n <= Z.of_nat (List.length l) ->
  exists first last,
    nth_error l (Z.to_nat p) = Some first
    /\ nth_error l (Z.to_nat (p + n - 1)) = Some last
    /\ Py.getitem (Py.slice l p (p + n)) 0 = Ok first
    /\ Py.getitem (Py.slice l p (p + n)) (-1) = Ok last.
Proof.
  intros Hp Hn Hle.
  destruct (nth_error l (Z.to_nat p)) as [first|] eqn:Ef;
    [|apply nth_error_None in Ef; lia].
  destruct (nth_error l (Z.to_nat (p + n - 1))) as [last|] eqn:El;
    [|apply nth_error_None in El; lia].
  exists first, last. repeat split.
  - rewrite slice_window by lia. apply getitem_nth; [lia|].
    rewrite nth_error_firstn, nth_error_skipn.
    replace (Z.to_nat 0 <? Z.to_nat n)%nat with true
      by (symmetry; apply Nat.ltb_lt; lia).
    replace (Z.to_nat p + Z.to_nat 0)%nat with (Z.to_nat p) by lia.
    exact Ef.
  - rewrite slice_window by lia. apply getitem_last.
    rewrite length_firstn, length_skipn.
    rewrite nth_error_firstn, nth_error_skipn.
    replace (Nat.min (Z.to_nat n) (List.length l - Z.to_nat p) - 1)%nat
      with (Z.to_nat n - 1)%nat by lia.
    replace (Z.to_nat n - 1 <? Z.to_nat n)%nat with true
      by (symmetry; apply Nat.ltb_lt; lia).
    replace (Z.to_nat p + (Z.to_nat n - 1))%nat
      with (Z.to_nat (p + n - 1)) by lia.
    exact El.
Qed.

Section DateRangeFacts.

Variable today : Date.t.
Variable first_printable : Date.t.
Variable date_range_table : list date_range.
Variable default_order : list date_range -> list date_range.
Variable order_by_date_start : list date_range -> list date_range.

(** Ordering the rows of a search neither adds nor drops a row. *)
Hypothesis default_order_perm :
  forall l, Permutation l (default_order l).
Hypothesis order_by_date_start_perm :
  forall l, Permutation l (order_by_date_start l).

Lemma current_in_all (ty : option Z) (d : Date.t) (company : Z)
  (r : date_range) :
  In r (search_current date_range_table default_order ty d company) ->
  In r (search_all date_range_table order_by_date_start ty company).
Proof.
  unfold search_current, search_all. intros Hin.
  apply (Permutation_in _ (Permutation_sym (default_order_perm _))) in Hin.
  apply filter_In in Hin. destruct Hin as [Ht Hf].
  apply (Permutation_in _ (order_by_date_start_perm _)).
  apply filter_In. split; [exact Ht|].
  repeat (apply andb_true_iff in Hf; destruct Hf as [Hf ?]).
  apply andb_true_iff. split; assumption.
Qed.


End DateRangeFacts.



(** ** Configuration validator *)

(** A recordset never equals an integer id. *)
Lemma recordset_never_equals_id (r : Recordset.t) (n : Z) :
  Recordset.eq r (PyInt n) = false.
Proof. reflexivity. Qed.

(** X8.  A compare column that lacks its [from] or its [to] reference is
    rejected with the "provide both columns" error, whatever the table
    holds. *)
Lemma cmpcol_missing_reference_raises (table : list period)
  (self : period) :
  source self = SRC_CMPCOL ->
  source_cmpcol_from_id self = None \/ source_cmpcol_to_id self = None ->
  _check_source_cmpcol table self
  = Raise (ValidationError (msg_provide_both (name self))).
Proof.
  intros Hs H. unfold _check_source_cmpcol. rewrite Hs. cbn [source_eqb].
  destruct H as [H|H]; rewrite H; cbn.
  - reflexivity.
  - destruct (source_cmpcol_from_id self); reflexivity.
Qed.

Lemma instance_recordset_ne (a b : Z) :
  Recordset.ne (Recordset.many2one instance_model (Some a))
    (Recordset.to_pyval (Recordset.many2one instance_model (Some b)))
  = negb (a =? b).
Proof.
  unfold Recordset.ne, Recordset.eq, Recordset.to_pyval, Recordset.many2one,
    Recordset.subset.
  cbn [Recordset.model Recordset.ids forallb existsb].
  rewrite String.eqb_refl. cbn [andb].
  rewrite (Z.eqb_sym b a). destruct (a =? b); reflexivity.
Qed.

(** X9.  A compare column whose two references are present and one of
    which belongs to another report instance is rejected with the "same
    report" error. *)
Lemma cmpcol_other_instance_raises (table : list period)
  (self from_p to_p : period) :
  source self = SRC_CMPCOL ->
  source_cmpcol_from_id self = Some (id from_p) ->
  source_cmpcol_to_id self = Some (id to_p) ->
  browse table (id from_p) = Ok from_p ->
  browse table (id to_p) = Ok to_p ->
  report_instance_id from_p <> report_instance_id self
  \/ report_instance_id to_p <> report_instance_id self ->
  _check_source_cmpcol table self
  = Raise (ValidationError (msg_same_report (name self))).
Proof.
  intros Hs Hf Ht Bf Bt H. unfold _check_source_cmpcol.
  rewrite Hs, Hf, Ht. cbn [source_eqb Recordset.truthy Recordset.many2one
    Recordset.ids negb orb Recordset.eq related_instance].
  rewrite Bf. cbn [bind]. rewrite instance_recordset_ne.
  destruct (report_instance_id from_p =? report_instance_id self) eqn:E1;
    cbn [negb]; [|reflexivity].
  rewrite Bt. cbn [bind]. rewrite instance_recordset_ne.
  destruct (report_instance_id to_p =? report_instance_id self) eqn:E2;
    cbn [negb]; [|reflexivity].
  apply Z.eqb_eq in E1. apply Z.eqb_eq in E2. destruct H; contradiction.
Qed.

(** X10.  A compare column whose two references are present and belong
    to its own report instance passes the check. *)
Lemma cmpcol_well_formed_passes (table : list period)
  (self from_p to_p : period) :
  source self = SRC_CMPCOL ->
  source_cmpcol_from_id self = Some (id from_p) ->
  source_cmpcol_to_id self = Some (id to_p) ->
  browse table (id from_p) = Ok from_p ->
  browse table (id to_p) = Ok to_p ->
  report_instance_id from_p = report_instance_id self ->
  report_instance_id to_p = report_instance_id self ->
  _check_source_cmpcol table self = Ok tt.
Proof.
  intros Hs Hf Ht Bf Bt If It. unfold _check_source_cmpcol.
  rewrite Hs, Hf, Ht. cbn [source_eqb Recordset.truthy Recordset.many2one
    Recordset.ids negb orb Recordset.eq related_instance].
  rewrite Bf. cbn [bind]. rewrite instance_recordset_ne, If, Z.eqb_refl.
  cbn [negb]. rewrite Bt. cbn [bind].
  rewrite instance_recordset_ne, It, Z.eqb_refl. reflexivity.
Qed.

(** C2.  The validator is meant to reject a compare column that names
    itself, but it compares the referenced records with the integer
    [self.id]: the column [self_compare], whose two references are itself,
    passes validation. *)
Theorem self_compare_passes_validation :
  source Sample.self_compare = SRC_CMPCOL
  /\ source_cmpcol_from_id Sample.self_compare
     = Some (id Sample.self_compare)
  /\ source_cmpcol_to_id Sample.self_compare
     = Some (id Sample.self_compare)
  /\ _check_source_cmpcol [Sample.self_compare] Sample.self_compare
     = Ok tt.
Proof. repeat split. Qed.

(** ** Parameter values *)

Section ParamValueFacts.

Variable ref_record : Type.
Variable ref_value : Type.
Variable env_search : string -> string -> option string -> list ref_record.
Variable read_field : ref_record -> string -> ref_value.

(** For an unrecognised type [_value] reaches its last branch, where the
    name [pv] is unbound. *)
Lemma value_unrecognised_type (pv : param_value) :
  recognised pv = false ->
  _value env_search read_field pv = Raise (NameError "pv").
Proof.
  unfold recognised, _value. intros H.
  apply orb_false_iff in H. destruct H as [H H3].
  apply orb_false_iff in H. destruct H as [H1 H2].
  rewrite H1, H2, H3. reflexivity.
Qed.

(** X15.  The sibling [_compute_val_display] reports an unrecognised type
    with the "unsupported parameter type" error carrying the type. *)
Lemma val_display_unrecognised_type (pv : param_value)
  (str_of_float : float_t -> string) :
  recognised pv = false ->
  _compute_val_display pv str_of_float
  = Raise (UserError (msg_unsupported_type (pv_type pv))).
Proof.
  unfold recognised, _compute_val_display. intros H.
  apply orb_false_iff in H. destruct H as [H H3].
  apply orb_false_iff in H. destruct H as [H1 H2].
  rewrite H1, H2, H3. reflexivity.
Qed.

(** C3.  Resolving the value of a parameter of type ['bool'] does not fail
    with the "unsupported parameter type" error: it raises [NameError] for
    the unbound name [pv]. *)
Theorem value_of_unsupported_type_raises_name_error :
  recognised Sample.pv_bool = false
  /\ _value env_search read_field Sample.pv_bool = Raise (NameError "pv")
  /\ _value env_search read_field Sample.pv_bool
     <> Raise (UserError (msg_unsupported_type (pv_type Sample.pv_bool))).
Proof.
  split; [reflexivity | split; [reflexivity | discriminate]].
Qed.

End ParamValueFacts.

(** ** Switching the comparison mode *)

Section InverseFacts.

Variable clock : Date.t.
Variable new_id : Z.

Lemma entering_comparison_mode_clears_dates (record : instance) :
  exists record',
    _inverse_comparison_mode clock new_id true record = Ok record'
    /\ date_from record' = None /\ date_to record' = None
    /\ period_ids record' = period_ids record.
Proof.
  eexists. split; [reflexivity|]. repeat split.
Qed.

Lemma leaving_comparison_mode_with_dates (record : instance)
  (a b : Date.t) :
  date_from record = Some a -> date_to record = Some b ->
  exists record',
    _inverse_comparison_mode clock new_id false record = Ok record'
    /\ period_ids record' = [default_period new_id (inst_id record)]
    /\ date_from record' = Some a /\ date_to record' = Some b
    /\ _compute_comparison_mode record' = false.
Proof.
  intros Ha Hb. unfold _inverse_comparison_mode. rewrite Ha, Hb.
  eexists. split; [reflexivity|]. repeat split.
Qed.

Lemma leaving_comparison_mode_without_dates (record : instance) :
  date_from record = None \/ date_to record = None ->
  _inverse_comparison_mode clock new_id false record
  = Raise (AttributeError "module" "now").
Proof.
  intros H. unfold _inverse_comparison_mode.
  destruct (date_from record) as [a|] eqn:Ea.
  - destruct H as [H|H]; [discriminate|]. rewrite H. reflexivity.
  - reflexivity.
Qed.

(** C4.  Switching a comparison-mode instance (periods, no fixed dates)
    out of comparison mode does not remove its periods: [datetime.now()]
    is evaluated on the module [datetime] and raises [AttributeError]
    before anything is cleared. *)
Theorem leaving_comparison_mode_raises :
  _compute_comparison_mode (Sample.cmp_instance [Sample.p_week 0 1]) = true
  /\ _inverse_comparison_mode clock new_id false
       (Sample.cmp_instance [Sample.p_week 0 1])
     = Raise (AttributeError "module" "now").
Proof. split; reflexivity. Qed.

End InverseFacts.

(** ** Column builder and orchestration *)

Lemma prefix_append (n r : string) : String.prefix n (n ++ r) = true.
Proof.
  induction n as [|a n IH]; [destruct r; reflexivity|].
  cbn. destruct (Ascii.ascii_dec a a); [exact IH | contradiction].
Qed.

Lemma contains_prefix (sub s : string) :
  String.prefix sub s = true -> contains sub s = true.
Proof. intros H. destruct s; cbn [contains]; rewrite H; reflexivity. Qed.

Lemma contains_append (pre sub post : string) :
  contains sub (pre ++ sub ++ post) = true.
Proof.
  induction pre as [|a pre IH].
  - change ("" ++ sub ++ post)%string with (sub ++ post)%string.
    apply contains_prefix. apply prefix_append.
  - cbn [String.append contains]. rewrite IH. apply orb_true_r.
Qed.

Lemma missing_dates_message_names_column (n : string) :
  contains n (msg_missing_dates n) = true.
Proof. unfold msg_missing_dates. apply contains_append. Qed.

Section EngineFacts.

Variable kpi_matrix : Type.
Variable aep : Type.
Variable matrix_dict : Type.
Variable ref_record : Type.
Variable ref_value : Type.
Variable env_search : string -> string -> option string -> list ref_record.
Variable read_field : ref_record -> string -> ref_value.
Variable _prepare_aep : Z -> result aep.
Variable prepare_kpi_matrix : result kpi_matrix.
Variable declare_and_compute_period :
  context ref_value -> kpi_matrix -> Z -> string -> option string -> aep ->
  Date.t -> Date.t -> option target_move_t -> list Z -> option string ->
  result kpi_matrix.
Variable declare_sum :
  kpi_matrix -> Z -> list (sign_t * Z) -> string -> option string ->
  bool -> result kpi_matrix.
Variable declare_comparison :
  kpi_matrix -> Z -> option Z -> option Z -> string -> option string ->
  result kpi_matrix.
Variable compute_comparisons : kpi_matrix -> result kpi_matrix.
Variable compute_sums : kpi_matrix -> result kpi_matrix.
Variable as_dict : kpi_matrix -> result matrix_dict.
Variable _format_date : instance -> Date.t -> result string.

Let add_column :=
  _add_column declare_and_compute_period declare_sum declare_comparison.
Let build :=
  build_columns declare_and_compute_period declare_sum declare_comparison
    _format_date.
Let run :=
  compute env_search read_field _prepare_aep prepare_kpi_matrix
    declare_and_compute_period declare_sum declare_comparison
    compute_comparisons compute_sums as_dict _format_date.

(** An actuals-sourced column one of whose resolved dates is missing. *)
Lemma add_column_lacking_dates (ctx : context ref_value) (self : instance)
  (a : aep) (km : kpi_matrix) (c : column) (label : string)
  (description : option string) :
  lacks_dates c ->
  add_column ctx self a km c label description
  = Raise (UserError (msg_missing_dates (name (col_period c)))).
Proof.
  intros [Hs Hd]. unfold add_column, _add_column, _add_column_actuals,
    _add_column_actuals_alt.
  destruct Hs as [Hs|Hs]; rewrite Hs;
    destruct Hd as [Hd|Hd]; rewrite Hd;
    try reflexivity;
    destruct (p_date_from (col_dates c)); reflexivity.
Qed.

Lemma build_columns_app (ctx : context ref_value) (self : instance)
  (a : aep) (pre post : list column) :
  forall km,
    build ctx self a km (pre ++ post)
    = (km' <- build ctx self a km pre ;; build ctx self a km' post).
Proof.
  induction pre as [|c pre IH]; intros km; [reflexivity|].
  unfold build in *. cbn [build_columns app].
  destruct (describe _format_date self c) as [d|e]; [|reflexivity].
  cbn [bind].
  destruct (_add_column declare_and_compute_period declare_sum
              declare_comparison ctx self a km c (name (col_period c)) d)
    as [km'|e]; [|reflexivity].
  cbn [bind]. apply IH.
Qed.

Lemma build_columns_stops (ctx : context ref_value) (self : instance)
  (a : aep) (c : column) (post : list column) (km : kpi_matrix) :
  lacks_dates c ->
  is_ok (build ctx self a km (c :: post)) = false
  /\ forall description,
       describe _format_date self c = Ok description ->
       build ctx self a km (c :: post)
       = Raise (UserError (msg_missing_dates (name (col_period c)))).
Proof.
  intros Hc. unfold build. cbn [build_columns]. split.
  - destruct (describe _format_date self c) as [d|e]; [|reflexivity].
    cbn [bind].
    rewrite (@add_column_lacking_dates ctx self a km c _ d Hc). reflexivity.
  - intros d Hd. rewrite Hd. cbn [bind].
    rewrite (@add_column_lacking_dates ctx self a km c _ d Hc). reflexivity.
Qed.

(** C8 (as amended).  When a column with source Actuals or
    ActualsAlternate lacks a resolved [date_from] or [date_to], [compute]
    never returns a matrix: it raises.  When moreover the parameters
    resolve, the collaborators are prepared, the columns before it are
    built and its description is computed without failure, the error
    raised is the missing-date-range error whose message names that
    column. *)
Theorem compute_aborts_on_missing_dates (self : instance)
  (pre post : list column) (c : column) :
  lacks_dates c ->
  is_ok (run self (pre ++ c :: post)) = false
  /\ forall ctx a km0 km1 description,
       _param_vals env_search read_field self = Ok ctx ->
       _prepare_aep (company_id self) = Ok a ->
       prepare_kpi_matrix = Ok km0 ->
       build ctx self a km0 pre = Ok km1 ->
       describe _format_date self c = Ok description ->
       run self (pre ++ c :: post)
       = Raise (UserError (msg_missing_dates (name (col_period c))))
       /\ contains (name (col_period c))
            (msg_missing_dates (name (col_period c))) = true.
Proof.
  intros Hc. split.
  - unfold run, compute, _compute_matrix.
    destruct (_param_vals env_search read_field self) as [ctx|e];
      [|reflexivity].
    cbn [bind].
    destruct (_prepare_aep (company_id self)) as [a|e]; [|reflexivity].
    cbn [bind].
    destruct prepare_kpi_matrix as [km0|e]; [|reflexivity].
    cbn [bind].
    fold (build ctx self a km0 (pre ++ c :: post)).
    rewrite build_columns_app.
    destruct (build ctx self a km0 pre) as [km1|e]; [|reflexivity].
    cbn [bind].
    destruct (@build_columns_stops ctx self a c post km1 Hc) as [Hstop _].
    destruct (build ctx self a km1 (c :: post)) as [km2|e];
      [discriminate | reflexivity].
  - intros ctx a km0 km1 d Hp Ha Hk Hb Hd.
    split; [|apply missing_dates_message_names_column].
    unfold run, compute, _compute_matrix.
    rewrite Hp. cbn [bind]. rewrite Ha. cbn [bind]. rewrite Hk. cbn [bind].
    fold (build ctx self a km0 (pre ++ c :: post)).
    rewrite build_columns_app, Hb. cbn [bind].
    destruct (@build_columns_stops ctx self a c post km1 Hc) as [_ Hstop].
    rewrite (Hstop d Hd). reflexivity.
Qed.

End EngineFacts.

(** C8, witness: the first of two date-less actuals columns, with the
    recording accumulator. *)
Lemma compute_aborts_on_missing_dates_witness :
  lacks_dates Recorder.q1
  /\ is_ok (Recorder.run Recorder.two_columns [Recorder.q1; Recorder.q2])
     = false
  /\ Recorder.run Recorder.two_columns [Recorder.q1; Recorder.q2]
     = Raise (UserError (msg_missing_dates "Q1")).
Proof.
  assert (H : lacks_dates Recorder.q1).
  { split; [left; reflexivity | right; reflexivity]. }
  split; [exact H|].
  destruct (@compute_aborts_on_missing_dates
              Recorder.matrix unit Recorder.matrix unit unit
              (fun _ _ _ => @nil unit) (fun _ _ => tt)
              (fun _ => Ok tt) (Ok [])
              Recorder.declare_and_compute_period Recorder.declare_sum
              Recorder.declare_comparison (fun km => Ok km)
              (fun km => Ok km) (fun km => Ok km) (fun _ _ => Ok "")
              Recorder.two_columns [] [Recorder.q2] Recorder.q1 H)
    as [Hnot Hmsg].
  split; [exact Hnot|].
  destruct (Hmsg [] tt [] [] None eq_refl eq_refl eq_refl eq_refl
              eq_refl) as [Hrun _].
  exact Hrun.
Defined.

(** C8, counterexample: the second column lacks its [date_to] as well, but
    the computation stops at the first one and the error raised does not
    name the second. *)
Lemma compute_names_first_column_counterexample :
  lacks_dates Recorder.q2
  /\ In Recorder.q2 [Recorder.q1; Recorder.q2]
  /\ Recorder.run Recorder.two_columns [Recorder.q1; Recorder.q2]
     = Raise (UserError (msg_missing_dates "Q1"))
  /\ contains (name (col_period Recorder.q2)) (msg_missing_dates "Q1")
     = false.
Proof.
  split; [split; [left; reflexivity | right; reflexivity]|].
  split; [right; left; reflexivity|].
  split; reflexivity.
Qed.

(** ** Drill-down *)

Section DrilldownFacts.

Variable aep : Type.
Variable leaf : Type.
Variable AEP : Z -> aep.
Variable has_account_var : string -> bool.
Variable parse_expr : aep -> string -> aep.
Variable done_parsing : aep -> aep.
Variable get_aml_domain_for_expr :
  aep -> string -> option Date.t -> option Date.t ->
  option target_move_t -> option Z -> list leaf.
Variable today : Date.t.
Variable first_printable : Date.t.
Variable date_range_table : list date_range.
Variable default_order : list date_range -> list date_range.
Variable order_by_date_start : list date_range -> list date_range.
Variable period_table : list period.
Variable instance_table : list instance.

Let drill :=
  drilldown AEP has_account_var parse_expr done_parsing
    get_aml_domain_for_expr today first_printable date_range_table
    default_order order_by_date_start period_table instance_table.

Let resolve :=
  _compute_dates today first_printable date_range_table default_order
    order_by_date_start.

Lemma nonempty_some (e : string) :
  e <> "" -> Py.nonempty (Some e) = Some e.
Proof. destruct e; [congruence | reflexivity]. Qed.

(** C9 (as amended).  A call without a period identifier, without an
    expression, or whose expression has no account variable yields the
    sentinel and no descriptor.  A call with the identifier of a period
    record whose dates resolve, an expression with an account variable
    and an optional account yields a descriptor: its label is
    "expression - period label", its filter is the one the expression
    processor gives for the resolved dates (with the posted/all state for
    an Actuals column only) and for the account, extended by the period's
    hook, and its target is the alternate source model for an
    ActualsAlternate column, none when that column has no source model,
    and the move-line model for any other column.  When the dates of the
    period do not resolve, the resolver's error is raised and no
    descriptor is returned. *)
Theorem drilldown_sentinel_or_descriptor (self : instance)
  (arg : drilldown_arg) :
  (int_truthy (arg_period_id arg) = false
   \/ Py.nonempty (arg_expr arg) = None
   \/ (exists e, arg_expr arg = Some e /\ has_account_var e = false) ->
   drill self arg = Ok None)
  /\ (forall pid e p report,
        arg_period_id arg = Some pid -> pid <> 0 ->
        arg_expr arg = Some e -> e <> "" ->
        has_account_var e = true ->
        browse period_table pid = Ok p ->
        browse_instance instance_table (report_instance_id p) = Ok report ->
        (forall ds,
           resolve report p = Ok ds ->
           exists act,
             drill self arg = Ok (Some act)
             /\ act_name act = (e ++ " - " ++ name p)%string
             /\ act_domain act
                = get_aml_domain_for_expr
                    (done_parsing (parse_expr (AEP (company_id self)) e)) e
                    (p_date_from ds) (p_date_to ds)
                    (match source p with
                     | SRC_ACTUALS => Some (target_move self)
                     | _ => None
                     end)
                    (arg_account_id arg)
             /\ res_model act
                = match source p with
                  | SRC_ACTUALS_ALT => source_aml_model_id p
                  | _ => Some "account.move.line"
                  end
             /\ (res_model act = None
                 <-> source p = SRC_ACTUALS_ALT
                     /\ source_aml_model_id p = None))
        /\ (forall err,
              resolve report p = Raise err -> drill self arg = Raise err)).
Proof.
  split.
  - intros H. unfold drill, drilldown.
    destruct (arg_period_id arg) as [pid|] eqn:Ep; [|reflexivity].
    destruct (Py.nonempty (arg_expr arg)) as [e|] eqn:Ee; [|reflexivity].
    destruct H as [H|[H|(e' & He' & Hv)]].
    + rewrite H. reflexivity.
    + discriminate.
    + rewrite He' in Ee. destruct e'; [discriminate|].
      cbn [Py.nonempty] in Ee. injection Ee as <-.
      rewrite Hv, andb_false_r. reflexivity.
  - intros pid e p report Hp Hnz He Hne Hv Hb Hi.
    assert (Hrun : drill self arg
      = (pd <- (ds <- resolve report p ;; Ok (p, ds)) ;;
         Ok (Some
           {| act_name := (e ++ " - " ++ name (fst pd))%string;
              act_domain :=
                get_aml_domain_for_expr
                  (done_parsing (parse_expr (AEP (company_id self)) e)) e
                  (p_date_from (snd pd)) (p_date_to (snd pd))
                  (if source_eqb (source (fst pd)) SRC_ACTUALS
                   then Some (target_move self) else None)
                  (arg_account_id arg)
                ++ _get_additional_move_line_filter leaf (fst pd);
              act_type := "ir.actions.act_window";
              res_model :=
                if source_eqb (source (fst pd)) SRC_ACTUALS_ALT
                then source_aml_model_id (fst pd)
                else Some "account.move.line";
              view_type := "list"; view_mode := "list";
              target := "current" |}))).
    { unfold drill, drilldown, read_dates, resolve.
      rewrite Hp, He, (nonempty_some Hne), Hv. cbn [int_truthy].
      replace (pid =? 0) with false
        by (symmetry; apply Z.eqb_neq; exact Hnz).
      cbn [negb andb]. rewrite Hb. cbn [bind]. rewrite Hi. cbn [bind].
      reflexivity. }
    split.
    + intros ds Hds. rewrite Hrun, Hds. cbn [bind fst snd].
      eexists. split; [reflexivity|].
      cbn [act_name act_domain res_model]. split; [reflexivity|].
      split; [|split].
      * unfold _get_additional_move_line_filter. rewrite app_nil_r.
        destruct (source p); reflexivity.
      * destruct (source p); reflexivity.
      * destruct (source p) eqn:Hs; cbn [source_eqb]; split;
          try discriminate; try (intros [H _]; discriminate).
        -- intros H. split; [reflexivity | exact H].
        -- intros [_ H]. exact H.
    + intros err Herr. rewrite Hrun, Herr. reflexivity.
Qed.

End DrilldownFacts.

(** C9, witness: drill-down into the week column for an expression with an
    account variable; the week of the pivot is resolved on the way. *)
Lemma drilldown_sentinel_or_descriptor_witness :
  exists act,
    drilldown (fun _ => tt) (String.prefix "bal") (fun a _ => a)
      (fun a => a) (fun _ e df dt _ _ => [(e, df, dt)])
      0 Sample.first_printable [] (fun l => l) (fun l => l)
      [Sample.p_week 0 1] [Sample.cmp_instance [Sample.p_week 0 1]]
      (Sample.cmp_instance [Sample.p_week 0 1])
      {| arg_period_id := Some 2; arg_expr := Some "balp[70]";
         arg_account_id := None |}
    = Ok (Some act)
    /\ act_name act = "balp[70] - Week"
    /\ act_domain act
       = [("balp[70]", Some (Date.ymd 2024 3 11),
           Some (Date.ymd 2024 3 17))].
Proof.
  destruct (proj1 (proj2
    (@drilldown_sentinel_or_descriptor unit
       (string * option Date.t * option Date.t) (fun _ => tt)
       (String.prefix "bal") (fun a _ => a) (fun a => a)
       (fun _ e df dt _ _ => [(e, df, dt)])
       0 Sample.first_printable [] (fun l => l) (fun l => l)
       [Sample.p_week 0 1] [Sample.cmp_instance [Sample.p_week 0 1]]
       (Sample.cmp_instance [Sample.p_week 0 1])
       {| arg_period_id := Some 2; arg_expr := Some "balp[70]";
          arg_account_id := None |})
    2 "balp[70]" (Sample.p_week 0 1)
    (Sample.cmp_instance [Sample.p_week 0 1])
    eq_refl ltac:(discriminate) eq_refl ltac:(discriminate) eq_refl
    eq_refl eq_refl)
    {| p_date_from := Some (Date.ymd 2024 3 11);
       p_date_to := Some (Date.ymd 2024 3 17); valid := true |}
    eq_refl)
    as (act & Hrun & Hname & Hdom & _).
  exists act. split; [exact Hrun|]. split; [exact Hname | exact Hdom].
Defined.

(** C9, counterexample: a period, an expression with an account variable
    and no dimension are supplied, yet the descriptor for an
    ActualsAlternate column without a source model has no target model,
    and for the week column a million weeks ahead no descriptor is
    returned at all, the resolution of its dates raising
    [OverflowError]. *)
Lemma drilldown_counterexample :
  (exists act,
     drilldown (fun _ => tt) (String.prefix "bal") (fun a _ => a)
       (fun a => a) (fun _ e df dt _ _ => [(e, df, dt)])
       0 Sample.first_printable [] (fun l => l) (fun l => l)
       [Sample.p_alt] [Sample.cmp_instance [Sample.p_alt]]
       (Sample.cmp_instance [Sample.p_alt])
       {| arg_period_id := Some 6; arg_expr := Some "balp[70]";
          arg_account_id := None |}
     = Ok (Some act)
     /\ res_model act = None)
  /\ drilldown (fun _ => tt) (String.prefix "bal") (fun a _ => a)
       (fun a => a) (fun _ e df dt _ _ => [(e, df, dt)])
       0 Sample.first_printable [] (fun l => l) (fun l => l)
       [Sample.p_week 1000000 1]
       [Sample.cmp_instance [Sample.p_week 1000000 1]]
       (Sample.cmp_instance [Sample.p_week 1000000 1])
       {| arg_period_id := Some 2; arg_expr := Some "balp[70]";
          arg_account_id := None |}
     = Raise OverflowError.
Proof.
  split; [|reflexivity]. eexists. split; reflexivity.
Qed.

(** ** Uniqueness of period names *)

Lemma same_key_false (p q : period) :
  same_key p q = false ->
  report_instance_id p = report_instance_id q -> name p <> name q.
Proof.
  unfold same_key. intros H Hi Hn.
  rewrite Hn, String.eqb_refl, Hi, Z.eqb_refl in H. discriminate.
Qed.

Lemma existsb_false_In {A : Type} (f : A -> bool) (l : list A) (x : A) :
  existsb f l = false -> In x l -> f x = false.
Proof.
  intros H Hin. destruct (f x) eqn:E; [|reflexivity].
  rewrite <- H. symmetry. apply existsb_exists. exists x. split; assumption.
Qed.

Lemma name_unique_sound (table : list period) :
  name_unique table = true -> names_distinct table.
Proof.
  induction table as [|r t IH]; intros H i j p q Hi Hj Hne Hinst.
  - destruct i; discriminate.
  - cbn [name_unique] in H. apply andb_true_iff in H.
    destruct H as [Hr Ht]. apply negb_true_iff in Hr.
    destruct i as [|i], j as [|j]; cbn [nth_error] in Hi, Hj.
    + contradiction.
    + injection Hi as <-. apply nth_error_In in Hj.
      apply (@same_key_false _ _ (@existsb_false_In _ _ _ _ Hr Hj) Hinst).
    + injection Hj as <-. apply nth_error_In in Hi.
      intros Hn. symmetry in Hn. symmetry in Hinst. revert Hn.
      apply (@same_key_false _ _ (@existsb_false_In _ _ _ _ Hr Hi) Hinst).
    + apply (IH Ht i j p q Hi Hj); [congruence | exact Hinst].
Qed.

Lemma sql_constraints_name_unique (table : list period) :
  _sql_constraints table = Ok tt -> name_unique table = true.
Proof.
  unfold _sql_constraints. intros H.
  destruct (negb (forallb (fun p => duration p >? 0) table));
    [discriminate|].
  destruct (negb (forallb (fun p => normalize_factor p >? 0) table));
    [discriminate|].
  destruct (name_unique table); [reflexivity | discriminate].
Qed.

(** ** Worked cases *)

(** Pivot 2024-03-15, a day period with offset -1 and duration 1 resolves
    to 2024-03-14 on both ends. *)
Example day_before_pivot :
  _compute_dates 0 Sample.first_printable [] (fun l => l) (fun l => l)
    (Sample.cmp_instance
       [Sample.mk_period 4 "Day" MODE_REL (Some TYPE_D) (-1) 1
          SRC_ACTUALS 1])
    (Sample.mk_period 4 "Day" MODE_REL (Some TYPE_D) (-1) 1 SRC_ACTUALS 1)
  = Ok {| p_date_from := Some (Date.ymd 2024 3 14);
          p_date_to := Some (Date.ymd 2024 3 14);
          valid := true |}.
Proof. reflexivity. Qed.

(** A window that starts before the first quarter, and one that runs past
    the last, produce no dates. *)
Example window_outside_catalog :
  _compute_dates 0 Sample.first_printable Sample.quarters
      (fun l => l) (fun l => l)
    (Sample.cmp_instance [Sample.p_range (-1) 1]) (Sample.p_range (-1) 1)
  = Ok no_dates
  /\ _compute_dates 0 Sample.first_printable Sample.quarters
      (fun l => l) (fun l => l)
       (Sample.cmp_instance [Sample.p_range 3 2]) (Sample.p_range 3 2)
     = Ok no_dates.
Proof. split; reflexivity. Qed.

(** The positive duration matters: a record with duration 0 (which the
    database constraint refuses to store) selects an empty window, and
    reading its first entry is out of bounds. *)
Example zero_duration_window :
  _compute_dates 0 Sample.first_printable Sample.quarters
      (fun l => l) (fun l => l)
    (Sample.cmp_instance [Sample.p_range 0 0]) (Sample.p_range 0 0)
  = Raise IndexError.
Proof. reflexivity. Qed.

(** * Further properties *)

(** ** Relative periods *)

Section RelativeFacts.

Variable today : Date.t.
Variable first_printable : Date.t.
Variable date_range_table : list date_range.
Variable default_order : list date_range -> list date_range.
Variable order_by_date_start : list date_range -> list date_range.

Let resolve :=
  _compute_dates today first_printable date_range_table default_order
    order_by_date_start.

Lemma add_in_range (d delta : Z) :
  Date.in_range (d + delta) = true -> Date.add d delta = Ok (d + delta).
Proof. intros H. unfold Date.add. rewrite H. reflexivity. Qed.

Lemma week_branch (report : instance) (record : period) :
  _compute_comparison_mode report = true ->
  mode record = MODE_REL ->
  type record = Some TYPE_W ->
  let d := _compute_pivot_date today report in
  let monday := d - Date.weekday d + 7 * offset record in
  Date.in_range d = true ->
  Date.in_range monday = true ->
  Date.in_range (monday + (7 * duration record - 1)) = true ->
  first_printable <= monday ->
  first_printable <= monday + (7 * duration record - 1) ->
  resolve report record
  = Ok {| p_date_from := Some monday;
          p_date_to := Some (monday + (7 * duration record - 1));
          valid := true |}.
Proof.
  intros Hcmp Hmode Htype d monday Hd Hm Hto Hp1 Hp2.
  unfold resolve, _compute_dates. rewrite Hcmp, Hmode, Htype.
  cbn [negb mode_eqb]. fold d.
  pose proof (weekday_range d) as Hw.
  pose proof (@monday_in_range d Hd) as Hm0.
  pose proof (@in_range_bounds _ Hm0) as B0.
  pose proof (@in_range_bounds _ Hm) as B1.
  pose proof (@in_range_bounds _ Hto) as B2.
  subst monday.
  rewrite !timedelta_ok by (unfold Date.max_delta_days; lia).
  cbn [bind]. unfold Date.sub. rewrite Hm0. cbn [bind].
  replace (offset record * 7) with (7 * offset record) by lia.
  rewrite (add_in_range _ _ Hm). cbn [bind].
  rewrite (add_in_range _ _ Hto). cbn [bind].
  rewrite (@to_string_ok _ _ Hp1). cbn [bind].
  rewrite (@to_string_ok _ _ Hp2). reflexivity.
Qed.

(** X1.  A [RelativeToBase] period of type [Day], resolved in comparison
    mode with dates that stay inside the calendar and are not earlier
    than the first printable date: [date_from] is the pivot moved by
    [offset] days, the range counts [duration] days and [valid] is
    true. *)
Theorem day_period_dates (report : instance) (record : period) :
  _compute_comparison_mode report = true ->
  mode record = MODE_REL ->
  type record = Some TYPE_D ->
  let d := _compute_pivot_date today report in
  Date.in_range d = true ->
  Date.in_range (d + offset record) = true ->
  Date.in_range (d + offset record + (duration record - 1)) = true ->
  first_printable <= d + offset record ->
  first_printable <= d + offset record + (duration record - 1) ->
  exists df dt,
    resolve report record
    = Ok {| p_date_from := Some df; p_date_to := Some dt; valid := true |}
    /\ df = d + offset record
    /\ dt - df + 1 = duration record.
Proof.
  intros Hcmp Hmode Htype d Hd Hf Hto Hp1 Hp2.
  exists (d + offset record), (d + offset record + (duration record - 1)).
  split; [|split; lia].
  unfold resolve, _compute_dates. rewrite Hcmp, Hmode, Htype.
  cbn [negb mode_eqb]. fold d.
  pose proof (@in_range_bounds _ Hd) as B0.
  pose proof (@in_range_bounds _ Hf) as B1.
  pose proof (@in_range_bounds _ Hto) as B2.
  rewrite !timedelta_ok by (unfold Date.max_delta_days; lia).
  cbn [bind]. rewrite (add_in_range _ _ Hf). cbn [bind].
  rewrite (add_in_range _ _ Hto). cbn [bind].
  rewrite (@to_string_ok _ _ Hp1). cbn [bind].
  rewrite (@to_string_ok _ _ Hp2). reflexivity.
Qed.

(** X2.  For a week period whose dates stay inside the calendar and are
    not earlier than the first printable date, the resolved range begins
    at most six days before the pivot moved by [offset] weeks, so that day
    lies in the first week of the range, and the range counts
    [7 * duration] days. *)
Theorem week_period_contains_shifted_pivot (report : instance)
  (record : period) :
  _compute_comparison_mode report = true ->
  mode record = MODE_REL ->
  type record = Some TYPE_W ->
  let d := _compute_pivot_date today report in
  let monday := d - Date.weekday d + 7 * offset record in
  Date.in_range d = true ->
  Date.in_range monday = true ->
  Date.in_range (monday + (7 * duration record - 1)) = true ->
  first_printable <= monday ->
  first_printable <= monday + (7 * duration record - 1) ->
  exists df dt,
    resolve report record
    = Ok {| p_date_from := Some df; p_date_to := Some dt; valid := true |}
    /\ df <= d + 7 * offset record <= df + 6
    /\ dt - df + 1 = 7 * duration record.
Proof.
  intros Hcmp Hmode Htype d monday Hd Hm Hto Hp1 Hp2.
  exists monday, (monday + (7 * duration record - 1)).
  split; [apply week_branch; assumption|].
  pose proof (weekday_range d) as Hw. subst monday. lia.
Qed.

End RelativeFacts.

(** X1, witness: pivot 2024-03-15, offset -1, duration 3. *)
Lemma day_period_dates_witness :
  exists df dt,
    _compute_dates 0 Sample.first_printable [] (fun l => l) (fun l => l)
      (Sample.cmp_instance
         [Sample.mk_period 4 "Day" MODE_REL (Some TYPE_D) (-1) 3
            SRC_ACTUALS 1])
      (Sample.mk_period 4 "Day" MODE_REL (Some TYPE_D) (-1) 3 SRC_ACTUALS 1)
    = Ok {| p_date_from := Some df; p_date_to := Some dt; valid := true |}
    /\ df = Date.ymd 2024 3 14 /\ dt - df + 1 = 3.
Proof.
  apply (@day_period_dates 0 Sample.first_printable [] (fun l => l) (fun l => l)
           (Sample.cmp_instance
              [Sample.mk_period 4 "Day" MODE_REL (Some TYPE_D) (-1) 3
                 SRC_ACTUALS 1])
           (Sample.mk_period 4 "Day" MODE_REL (Some TYPE_D) (-1) 3
              SRC_ACTUALS 1));
    first [reflexivity | discriminate].
Defined.

(** X2, witness: pivot 2024-03-15, two weeks starting one week earlier. *)
Lemma week_period_contains_shifted_pivot_witness :
  exists df dt,
    _compute_dates 0 Sample.first_printable [] (fun l => l) (fun l => l)
      (Sample.cmp_instance [Sample.p_week (-1) 2]) (Sample.p_week (-1) 2)
    = Ok {| p_date_from := Some df; p_date_to := Some dt; valid := true |}
    /\ df <= Date.ymd 2024 3 8 <= df + 6
    /\ dt - df + 1 = 14.
Proof.
  apply (@week_period_contains_shifted_pivot 0 Sample.first_printable []
      (fun l => l) (fun l => l)
           (Sample.cmp_instance [Sample.p_week (-1) 2])
           (Sample.p_week (-1) 2));
    first [reflexivity | discriminate].
Defined.

(** ** What resolution returns and raises *)

Ltac break_ok H :=
  repeat match type of H with
  | bind ?m _ = _ => destruct m eqn:?; cbn [bind] in H
  | (if ?b then _ else _) = _ => destruct b eqn:?
  | match ?x with _ => _ end = _ => destruct x eqn:?
  end.

Lemma timedelta_raises (n : Z) (e : exn) :
  Date.timedelta n = Raise e -> e = OverflowError.
Proof.
  unfold Date.timedelta. destruct (_ && _); intros H;
    [discriminate | congruence].
Qed.

Lemma add_raises (d n : Z) (e : exn) :
  Date.add d n = Raise e -> e = OverflowError.
Proof.
  unfold Date.add. destruct (Date.in_range _); intros H;
    [discriminate | congruence].
Qed.

Lemma sub_raises (d n : Z) (e : exn) :
  Date.sub d n = Raise e -> e = OverflowError.
Proof.
  unfold Date.sub. destruct (Date.in_range _); intros H;
    [discriminate | congruence].
Qed.

Lemma to_string_raises (first_printable d : Z) (e : exn) :
  Date.to_string first_printable d = Raise e -> e = ValueError.
Proof.
  unfold Date.to_string. destruct (d <? first_printable); intros H;
    [congruence | discriminate].
Qed.

Lemma nodup_map_injective {A : Type} (f : A -> Z) (l : list A) (x y : A) :
  NoDup (map f l) -> In x l -> In y l -> f x = f y -> x = y.
Proof.
  induction l as [|a l IH]; intros Hnd Hx Hy Hf; [destruct Hx|].
  cbn [map] in Hnd. inversion Hnd as [|? ? Hnotin Hnd']; subst.
  destruct Hx as [->|Hx], Hy as [->|Hy].
  - reflexivity.
  - exfalso. apply Hnotin. rewrite Hf. apply in_map. exact Hy.
  - exfalso. apply Hnotin. rewrite <- Hf. apply in_map. exact Hx.
  - apply IH; assumption.
Qed.

Section ResolutionFacts.

Variable today : Date.t.
Variable first_printable : Date.t.
Variable date_range_table : list date_range.
Variable default_order : list date_range -> list date_range.
Variable order_by_date_start : list date_range -> list date_range.

Let resolve :=
  _compute_dates today first_printable date_range_table default_order
    order_by_date_start.

(** X3.  Whenever resolution returns, [valid] is true exactly when both
    dates are present, the one exception being a [NoDateFilter] period of
    a comparison-mode instance, which is valid without dates. *)
Theorem valid_iff_dates (report : instance) (record : period)
  (ds : dates) :
  resolve report record = Ok ds ->
  (valid ds = true
   <-> (p_date_from ds <> None /\ p_date_to ds <> None)
       \/ (_compute_comparison_mode report = true
           /\ mode record = MODE_NONE)).
Proof.
  unfold resolve, _compute_dates. intros H.
  destruct (_compute_comparison_mode report) eqn:Hcmp; cbn [negb] in H.
  - destruct (mode record) eqn:Hmode; cbn [mode_eqb] in H.
    + injection H as <-. cbn. split; [intros _; right; split; reflexivity
                                       | reflexivity].
    + injection H as <-. cbn.
      destruct (manual_date_from record), (manual_date_to record); cbn;
        (split;
         [ intros Hv; try discriminate; left; split; discriminate
         | intros [[Ha Hb]|[_ Hb]]; try reflexivity; try congruence ]).
    + break_ok H; try discriminate;
        injection H as <-; cbn;
        (split;
         [ intros Hv; try discriminate; left; split; discriminate
         | intros [[Ha Hb]|[_ Hb]]; try reflexivity; try congruence ]).
  - injection H as <-. cbn.
    destruct (date_from report), (date_to report); cbn;
      (split;
       [ intros Hv; try discriminate; left; split; discriminate
       | intros [[Ha Hb]|[Ha _]]; try reflexivity; try congruence ]).
Qed.

Hypothesis default_order_perm :
  forall l, Permutation l (default_order l).
Hypothesis order_by_date_start_perm :
  forall l, Permutation l (order_by_date_start l).

Lemma date_range_branch (report : instance) (record : period)
  (cur : date_range) (rest : list date_range) :
  _compute_comparison_mode report = true ->
  mode record = MODE_REL ->
  type record = Some TYPE_DATE_RANGE ->
  let d := _compute_pivot_date today report in
  let all :=
    search_all date_range_table order_by_date_start
      (date_range_type_id record) (company_id report) in
  search_current date_range_table default_order
    (date_range_type_id record) d (company_id report) = cur :: rest ->
  exists i x,
    0 <= i < Z.of_nat (List.length all)
    /\ nth_error all (Z.to_nat i) = Some x
    /\ dr_id x = dr_id cur
    /\ resolve report record
       = (let p := i + offset record in
          if (p >=? 0)
             && (p + duration record <=? Z.of_nat (List.length all))
          then
            let periods := Py.slice all p (p + duration record) in
            first <- Py.getitem periods 0 ;;
            last <- Py.getitem periods (-1) ;;
            Ok {| p_date_from := Some (date_start first);
                  p_date_to := Some (date_end last); valid := true |}
          else Ok no_dates).
Proof.
  intros Hcmp Hmode Htype d all Hc.
  assert (Hin : In cur all).
  { apply (@current_in_all date_range_table default_order
             order_by_date_start default_order_perm
             order_by_date_start_perm _ d).
    fold d in Hc. rewrite Hc. left. reflexivity. }
  destruct (@index_of_member (map dr_id all) (dr_id cur)
              (in_map dr_id _ _ Hin)) as (i & Hi & Hb & Hn).
  rewrite length_map in Hb. rewrite nth_error_map in Hn.
  destruct (nth_error all (Z.to_nat i)) as [x|] eqn:Ex; [|discriminate].
  cbn [option_map] in Hn. injection Hn as Hn.
  exists i, x.
  split; [lia|]. split; [exact Ex|]. split; [exact Hn|].
  unfold resolve, _compute_dates. rewrite Hcmp, Hmode, Htype.
  cbn [negb mode_eqb]. fold d. rewrite Hc. fold all.
  unfold Py.getitem at 1. cbn. rewrite Hi. cbn [bind].
  rewrite length_map. reflexivity.
Qed.

(** X4.  For a period of positive duration, resolution raises nothing but
    [OverflowError] (a date outside the calendar) or [ValueError] (a date
    that cannot be printed), and that only for a day or week period of a
    comparison-mode instance: fixed, date-less and catalog periods always
    resolve. *)
Theorem resolution_raises_only_overflow (report : instance)
  (record : period) (e : exn) :
  0 < duration record ->
  resolve report record = Raise e ->
  (e = OverflowError \/ e = ValueError)
  /\ _compute_comparison_mode report = true
  /\ mode record = MODE_REL
  /\ (type record = Some TYPE_D \/ type record = Some TYPE_W).
Proof.
  intros Hdur H.
  destruct (_compute_comparison_mode report) eqn:Hcmp;
    [|unfold resolve, _compute_dates in H; rewrite Hcmp in H; discriminate].
  destruct (mode record) eqn:Hmode;
    try (unfold resolve, _compute_dates in H; rewrite Hcmp, Hmode in H;
         discriminate).
  destruct (type record) as [[| |]|] eqn:Htype.
  - split; [|repeat split; left; reflexivity].
    unfold resolve, _compute_dates in H. rewrite Hcmp, Hmode, Htype in H.
    cbn [negb mode_eqb] in H. break_ok H; try discriminate;
      injection H as <-;
      first [ left; solve [eauto using timedelta_raises, add_raises,
                             sub_raises]
            | right; solve [eauto using to_string_raises] ].
  - split; [|repeat split; right; reflexivity].
    unfold resolve, _compute_dates in H. rewrite Hcmp, Hmode, Htype in H.
    cbn [negb mode_eqb] in H. break_ok H; try discriminate;
      injection H as <-;
      first [ left; solve [eauto using timedelta_raises, add_raises,
                             sub_raises]
            | right; solve [eauto using to_string_raises] ].
  - exfalso.
    destruct (search_current date_range_table default_order
                (date_range_type_id record)
                (_compute_pivot_date today report) (company_id report))
      as [|cur rest] eqn:Hc.
    + unfold resolve, _compute_dates in H. rewrite Hcmp, Hmode, Htype in H.
      cbn [negb mode_eqb] in H. rewrite Hc in H. discriminate.
    + destruct (@date_range_branch report record cur rest Hcmp Hmode Htype
                  Hc) as (i & x & Hb & _ & _ & Hr).
      rewrite Hr in H. cbv zeta in H.
      destruct (i + offset record >=? 0) eqn:E1; [|discriminate].
      destruct (i + offset record + duration record <=? _) eqn:E2;
        [|discriminate].
      apply Z.geb_le in E1. apply Z.leb_le in E2.
      destruct (@window_ends _ _ (i + offset record) (duration record)
                  E1 Hdur E2) as (first & last & _ & _ & Gf & Gl).
      cbn [andb] in H. rewrite Gf in H. cbn [bind] in H.
      rewrite Gl in H. discriminate.
  - unfold resolve, _compute_dates in H. rewrite Hcmp, Hmode, Htype in H.
    discriminate.
Qed.

(** X5.  With distinct ids in the catalog, a catalog period with offset 0
    and duration 1 resolves to the entry that contains the pivot date:
    the resolved range is that entry's and the pivot lies inside it. *)
Theorem current_range_contains_pivot (report : instance) (record : period)
  (cur : date_range) (rest : list date_range) :
  NoDup (map dr_id date_range_table) ->
  _compute_comparison_mode report = true ->
  mode record = MODE_REL ->
  type record = Some TYPE_DATE_RANGE ->
  offset record = 0 ->
  duration record = 1 ->
  let d := _compute_pivot_date today report in
  search_current date_range_table default_order
    (date_range_type_id record) d (company_id report) = cur :: rest ->
  resolve report record
  = Ok {| p_date_from := Some (date_start cur);
          p_date_to := Some (date_end cur); valid := true |}
  /\ date_start cur <= d <= date_end cur.
Proof.
  intros Hnd Hcmp Hmode Htype Hoff Hdur d Hc.
  destruct (@date_range_branch report record cur rest Hcmp Hmode Htype Hc)
    as (i & x & Hb & Hx & Hid & Hr).
  assert (Hcur : In cur
            (filter (fun r => type_matches (date_range_type_id record) r
                              && (date_start r <=? d) && (date_end r >=? d)
                              && (dr_company_id r =? company_id report))
                    date_range_table)).
  { apply (Permutation_in _ (Permutation_sym (default_order_perm _))).
    unfold search_current in Hc. rewrite Hc. left. reflexivity. }
  apply filter_In in Hcur. destruct Hcur as [Hct Hcf].
  assert (Hxt : In x date_range_table).
  { apply nth_error_In in Hx. unfold search_all in Hx.
    apply (Permutation_in _ (Permutation_sym
                               (order_by_date_start_perm _))) in Hx.
    apply filter_In in Hx. exact (proj1 Hx). }
  assert (x = cur)
    by (apply (@nodup_map_injective _ dr_id _ _ _ Hnd Hxt Hct Hid)).
  subst x. split.
  - rewrite Hr, Hoff, Hdur. cbv zeta.
    assert (H0 : 0 <= i + 0) by lia.
    assert (H1 : 0 < 1) by lia.
    assert (H2 : i + 0 + 1
                 <= Z.of_nat
                      (List.length
                         (search_all date_range_table order_by_date_start
                            (date_range_type_id record)
                            (company_id report)))) by lia.
    destruct (@window_ends _ _ (i + 0) 1 H0 H1 H2)
      as (first & last & Hf & Hl & Gf & Gl).
    replace (i + 0 >=? 0) with true by (symmetry; apply Z.geb_le; lia).
    replace (i + 0 + 1 <=? _) with true by (symmetry; apply Z.leb_le; lia).
    cbn [andb]. rewrite Gf. cbn [bind]. rewrite Gl.
    replace (Z.to_nat (i + 0)) with (Z.to_nat i) in Hf by lia.
    replace (Z.to_nat (i + 0 + 1 - 1)) with (Z.to_nat i) in Hl by lia.
    rewrite Hx in Hf, Hl. injection Hf as <-. injection Hl as <-.
    reflexivity.
  - repeat (apply andb_true_iff in Hcf; destruct Hcf as [Hcf ?]).
    split; [apply Z.leb_le | apply Z.geb_le]; assumption.
Qed.

End ResolutionFacts.

(** X3, witness: the week of the pivot is valid and has both dates. *)
Lemma valid_iff_dates_witness :
  valid {| p_date_from := Some (Date.ymd 2024 3 11);
           p_date_to := Some (Date.ymd 2024 3 17); valid := true |} = true
  <-> (Some (Date.ymd 2024 3 11) <> None
       /\ Some (Date.ymd 2024 3 17) <> None)
      \/ (_compute_comparison_mode (Sample.cmp_instance [Sample.p_week 0 1])
          = true
          /\ mode (Sample.p_week 0 1) = MODE_NONE).
Proof.
  apply (@valid_iff_dates 0 Sample.first_printable [] (fun l => l) (fun l => l)
           (Sample.cmp_instance [Sample.p_week 0 1]) (Sample.p_week 0 1)
           {| p_date_from := Some (Date.ymd 2024 3 11);
              p_date_to := Some (Date.ymd 2024 3 17); valid := true |}).
  reflexivity.
Defined.

(** X4, witness: the week period a million weeks ahead. *)
Lemma resolution_raises_only_overflow_witness :
  (OverflowError = OverflowError \/ OverflowError = ValueError)
  /\ _compute_comparison_mode
       (Sample.cmp_instance [Sample.p_week 1000000 1]) = true
  /\ mode (Sample.p_week 1000000 1) = MODE_REL
  /\ (type (Sample.p_week 1000000 1) = Some TYPE_D
      \/ type (Sample.p_week 1000000 1) = Some TYPE_W).
Proof.
  apply (@resolution_raises_only_overflow 0 Sample.first_printable []
      (fun l => l) (fun l => l)
           (fun l => Permutation_refl l) (fun l => Permutation_refl l)
           (Sample.cmp_instance [Sample.p_week 1000000 1])
           (Sample.p_week 1000000 1) OverflowError);
    reflexivity.
Defined.

(** X5, witness: the quarter of 2024-03-15 is the first quarter of 2024. *)
Lemma current_range_contains_pivot_witness :
  _compute_dates 0 Sample.first_printable Sample.quarters
      (fun l => l) (fun l => l)
    (Sample.cmp_instance [Sample.p_range 0 1]) (Sample.p_range 0 1)
  = Ok {| p_date_from := Some (Date.ymd 2024 1 1);
          p_date_to := Some (Date.ymd 2024 3 31); valid := true |}
  /\ Date.ymd 2024 1 1 <= Date.ymd 2024 3 15 <= Date.ymd 2024 3 31.
Proof.
  assert (Hnd : NoDup (map dr_id Sample.quarters)).
  { repeat constructor; cbn; intuition discriminate. }
  apply (@current_range_contains_pivot 0 Sample.first_printable Sample.quarters
      (fun l => l)
           (fun l => l) (fun l => Permutation_refl l)
           (fun l => Permutation_refl l)
           (Sample.cmp_instance [Sample.p_range 0 1]) (Sample.p_range 0 1)
           (Sample.quarter 10 1 1 3 31) [] Hnd);
    reflexivity.
Defined.

(** ** Mode and source *)

(** X6.  The mode/source check passes exactly when the coupling holds:
    an actuals source with a date filter, a derived source without one.
    When it fails, the error message names the column. *)
Theorem check_mode_source_iff (self : period) :
  (_check_mode_source self = Ok tt
   <-> is_actuals (source self) = negb (mode_eqb (mode self) MODE_NONE))
  /\ (_check_mode_source self <> Ok tt ->
      exists msg,
        _check_mode_source self = Raise (ValidationError msg)
        /\ contains (name self) msg = true).
Proof.
  unfold _check_mode_source. split.
  - destruct (source self), (mode self); cbn; split; intros H;
      try reflexivity; try discriminate.
  - destruct (source self), (mode self); cbn [mode_eqb negb]; intros H;
      try (exfalso; apply H; reflexivity);
      eexists; (split; [reflexivity | apply contains_append]).
Qed.

(** X7.  After the source onchange a column with a derived source (sum or
    compare) passes the mode/source check; its other fields, the source
    among them, are untouched. *)
Theorem onchange_source_restores_coupling (self : period) :
  is_actuals (source self) = false ->
  _check_mode_source (_onchange_source self) = Ok tt
  /\ source (_onchange_source self) = source self
  /\ name (_onchange_source self) = name self
  /\ _onchange_source (_onchange_source self) = _onchange_source self.
Proof.
  unfold _onchange_source, _check_mode_source.
  destruct (source self) eqn:Hs; cbn [is_actuals]; intros H;
    try discriminate; cbn; rewrite Hs; cbn; repeat split.
Qed.

(** X7, witness: a sum column still carrying fixed dates. *)
Lemma onchange_source_restores_coupling_witness :
  _check_mode_source
    (_onchange_source
       (Sample.mk_period 5 "Sum" MODE_FIX None 0 1 SRC_SUMCOL 1)) = Ok tt
  /\ _check_mode_source
       (Sample.mk_period 5 "Sum" MODE_FIX None 0 1 SRC_SUMCOL 1) <> Ok tt.
Proof.
  split; [|discriminate].
  apply (@onchange_source_restores_coupling
           (Sample.mk_period 5 "Sum" MODE_FIX None 0 1 SRC_SUMCOL 1)
           eq_refl).
Defined.

(** ** Compare columns, witnesses *)

(** X8, witness: a compare column with no [from] reference. *)
Lemma cmpcol_missing_reference_raises_witness :
  _check_source_cmpcol [] (Sample.mk_cmpcol 8 "Delta" 1 None (Some 7))
  = Raise (ValidationError (msg_provide_both "Delta")).
Proof.
  apply (@cmpcol_missing_reference_raises []
           (Sample.mk_cmpcol 8 "Delta" 1 None (Some 7)) eq_refl).
  left. reflexivity.
Defined.

(** X9, witness: the [to] column belongs to instance 2. *)
Lemma cmpcol_other_instance_raises_witness :
  _check_source_cmpcol
    [Sample.mk_period 1 "A" MODE_FIX None 0 1 SRC_ACTUALS 1;
     Sample.mk_period 2 "B" MODE_FIX None 0 1 SRC_ACTUALS 2]
    (Sample.mk_cmpcol 8 "Delta" 1 (Some 1) (Some 2))
  = Raise (ValidationError (msg_same_report "Delta")).
Proof.
  apply (@cmpcol_other_instance_raises
           [Sample.mk_period 1 "A" MODE_FIX None 0 1 SRC_ACTUALS 1;
            Sample.mk_period 2 "B" MODE_FIX None 0 1 SRC_ACTUALS 2]
           (Sample.mk_cmpcol 8 "Delta" 1 (Some 1) (Some 2))
           (Sample.mk_period 1 "A" MODE_FIX None 0 1 SRC_ACTUALS 1)
           (Sample.mk_period 2 "B" MODE_FIX None 0 1 SRC_ACTUALS 2)
           eq_refl eq_refl eq_refl eq_refl eq_refl).
  right. discriminate.
Defined.

(** X10, witness: both columns belong to instance 1. *)
Lemma cmpcol_well_formed_passes_witness :
  _check_source_cmpcol
    [Sample.mk_period 1 "A" MODE_FIX None 0 1 SRC_ACTUALS 1;
     Sample.mk_period 2 "B" MODE_FIX None 0 1 SRC_ACTUALS 1]
    (Sample.mk_cmpcol 8 "Delta" 1 (Some 1) (Some 2))
  = Ok tt.
Proof.
  apply (@cmpcol_well_formed_passes
           [Sample.mk_period 1 "A" MODE_FIX None 0 1 SRC_ACTUALS 1;
            Sample.mk_period 2 "B" MODE_FIX None 0 1 SRC_ACTUALS 1]
           (Sample.mk_cmpcol 8 "Delta" 1 (Some 1) (Some 2))
           (Sample.mk_period 1 "A" MODE_FIX None 0 1 SRC_ACTUALS 1)
           (Sample.mk_period 2 "B" MODE_FIX None 0 1 SRC_ACTUALS 1)
           eq_refl eq_refl eq_refl eq_refl eq_refl eq_refl eq_refl).
Defined.

(** ** Parameter values and dictionaries *)

Lemma dict_get_absent {V : Type} (d : list (string * V)) (k : string) :
  ~ In k (map fst d) -> dict_get d k = None.
Proof.
  induction d as [|[k' v] t IH]; intros Hn; [reflexivity|].
  cbn [dict_get]. rewrite IH by (intros H; apply Hn; right; exact H).
  destruct (String.eqb k' k) eqn:E; [|reflexivity].
  apply String.eqb_eq in E. exfalso. apply Hn. left. exact E.
Qed.

Section ParamDictFacts.

Variable ref_record : Type.
Variable ref_value : Type.
Variable env_search : string -> string -> option string -> list ref_record.
Variable read_field : ref_record -> string -> ref_value.

Let value := _value env_search read_field.
Let param_vals := _param_vals_of env_search read_field.

(** X11.  [_value] returns exactly for a string parameter, a numeric
    parameter, and a reference parameter whose lookup finds a record; a
    string or numeric value is the stored one. *)
Theorem value_returns_iff (pv : param_value) :
  is_ok (value pv)
  = (type_is pv "str" || type_is pv "num"
     || (type_is pv "ref"
         && negb (Nat.eqb (List.length (lookup_rows env_search pv)) 0)))
  /\ (type_is pv "str" = true -> value pv = Ok (VStr _ (val_str pv)))
  /\ (type_is pv "str" = false -> type_is pv "num" = true ->
      value pv = Ok (VNum _ (val_num pv))).
Proof.
  unfold value, _value, lookup_rows. repeat split.
  - destruct (type_is pv "str"); [reflexivity|].
    destruct (type_is pv "num"); [reflexivity|].
    destruct (type_is pv "ref"); [|reflexivity].
    destruct (env_search _ _ _); reflexivity.
  - intros ->. reflexivity.
  - intros -> ->. reflexivity.
Qed.

(** X12.  For a reference parameter, [_value] is the configured value
    field of the first record found; when none is found it raises the
    parameter error, whose message names the parameter. *)
Theorem value_of_reference (pv : param_value) :
  pv_type pv = Some "ref" ->
  match lookup_rows env_search pv with
  | r :: _ =>
      value pv
      = Ok (VRef (read_field r (ref_value_field (report_param_id pv))))
  | [] =>
      value pv = Raise (UserError (msg_param_not_found pv))
      /\ contains (pv_name pv) (msg_param_not_found pv) = true
  end.
Proof.
  intros Ht. unfold value, _value, type_is, lookup_rows. rewrite Ht.
  cbn [String.eqb Ascii.eqb Bool.eqb andb].
  destruct (env_search _ _ _); [|reflexivity].
  split; [reflexivity|]. unfold msg_param_not_found.
  apply contains_append.
Qed.

(** X13.  [_param_vals] stops at the first parameter whose value cannot
    be resolved and raises that parameter's error. *)
Theorem param_vals_first_failure (pre post : list param_value)
  (pv : param_value) (e : exn) :
  (forall p, In p pre -> is_ok (value p) = true) ->
  value pv = Raise e ->
  param_vals (pre ++ pv :: post) = Raise e.
Proof.
  unfold param_vals, value. induction pre as [|p pre IH]; intros Hpre Hpv.
  - cbn [app _param_vals_of]. rewrite Hpv. reflexivity.
  - cbn [app _param_vals_of].
    pose proof (Hpre p (or_introl eq_refl)) as Hp.
    destruct (_value env_search read_field p) as [v|e']; [|discriminate].
    cbn [bind]. rewrite IH; [reflexivity | | exact Hpv].
    intros q Hq. apply Hpre. right. exact Hq.
Qed.

(** X14.  When every parameter resolves and the parameter names are
    distinct, [_param_vals] returns a dictionary with one entry per
    parameter, in which each name is bound to the value of its
    parameter. *)
Theorem param_vals_lookup (l : list param_value) :
  NoDup (map pv_name l) ->
  (forall p, In p l -> is_ok (value p) = true) ->
  exists d,
    param_vals l = Ok d
    /\ map fst d = map pv_name l
    /\ forall p, In p l ->
         exists v, value p = Ok v /\ dict_get d (pv_name p) = Some v.
Proof.
  unfold value. induction l as [|p l IH]; intros Hnd Hall.
  - exists []. repeat split. intros p [].
  - cbn [map] in Hnd. inversion Hnd as [|? ? Hnotin Hnd']; subst.
    destruct IH as (d & Hd & Hk & Hget); [exact Hnd'| |].
    { intros q Hq. apply Hall. right. exact Hq. }
    pose proof (Hall p (or_introl eq_refl)) as Hp.
    destruct (_value env_search read_field p) as [v|e] eqn:Ev;
      [|discriminate].
    exists ((pv_name p, v) :: d). split; [|split].
    + unfold param_vals in *. cbn [_param_vals_of]. rewrite Ev.
      cbn [bind]. rewrite Hd. reflexivity.
    + cbn [map fst]. rewrite Hk. reflexivity.
    + intros q [<-|Hq].
      * exists v. split; [exact Ev|]. cbn [dict_get].
        rewrite dict_get_absent by (rewrite Hk; exact Hnotin).
        rewrite String.eqb_refl. reflexivity.
      * destruct (Hget q Hq) as (w & Hw & Hg). exists w.
        split; [exact Hw|]. cbn [dict_get]. rewrite Hg. reflexivity.
Qed.

End ParamDictFacts.

(** X12, witness: the partner with reference ACME is record 42. *)
Lemma value_of_reference_witness :
  _value SampleParams.env_search SampleParams.read_field
    SampleParams.partner
  = Ok (VRef 42).
Proof.
  apply (@value_of_reference Z Z SampleParams.env_search
           SampleParams.read_field SampleParams.partner eq_refl).
Defined.

(** X13, witness: the second of three parameters finds no record. *)
Lemma param_vals_first_failure_witness :
  _param_vals_of SampleParams.env_search SampleParams.read_field
    ([SampleParams.currency]
     ++ SampleParams.nobody :: [SampleParams.partner])
  = Raise (UserError (msg_param_not_found SampleParams.nobody)).
Proof.
  apply (@param_vals_first_failure Z Z SampleParams.env_search
           SampleParams.read_field [SampleParams.currency]
           [SampleParams.partner] SampleParams.nobody).
  - intros p [<-|[]]. reflexivity.
  - reflexivity.
Defined.

(** X14, witness: a string and a reference parameter. *)
Lemma param_vals_lookup_witness :
  exists d,
    _param_vals_of SampleParams.env_search SampleParams.read_field
      [SampleParams.currency; SampleParams.partner] = Ok d
    /\ map fst d = ["currency"; "partner"]
    /\ forall p, In p [SampleParams.currency; SampleParams.partner] ->
         exists v,
           _value SampleParams.env_search SampleParams.read_field p = Ok v
           /\ dict_get d (pv_name p) = Some v.
Proof.
  apply (@param_vals_lookup Z Z SampleParams.env_search
           SampleParams.read_field
           [SampleParams.currency; SampleParams.partner]).
  - repeat constructor; cbn; intuition discriminate.
  - intros p [<-|[<-|[]]]; reflexivity.
Defined.

(** X15, witness: the parameter of type ['bool']. *)
Lemma val_display_unrecognised_type_witness :
  _compute_val_display Sample.pv_bool (fun _ => "0.0")
  = Raise (UserError "Unsupported parameter type: 'bool'.").
Proof.
  apply (@val_display_unrecognised_type Sample.pv_bool (fun _ => "0.0")
           eq_refl).
Defined.

(** ** Synchronising parameter rows *)

Lemma synch_params_eq (rows : list param_row)
  (param_ids : list template_param) :
  _synch_params rows param_ids
  = rows ++ map new_param_row
              (filter (fun param => negb (has_row rows param)) param_ids).
Proof.
  unfold _synch_params.
  destruct (map new_param_row _); [rewrite app_nil_r|]; reflexivity.
Qed.

Lemma has_row_app (a b : list param_row) (param : template_param) :
  has_row (a ++ b) param = has_row a param || has_row b param.
Proof. unfold has_row. apply existsb_app. Qed.

Lemma has_row_iff (rows : list param_row) (param : template_param) :
  has_row rows param = true <-> In (tp_id param) (map row_param_id rows).
Proof.
  unfold has_row. rewrite existsb_exists, in_map_iff. split.
  - intros (r & Hr & E). apply Z.eqb_eq in E. exists r. split; assumption.
  - intros (r & E & Hr). exists r. split; [exact Hr | apply Z.eqb_eq, E].
Qed.

Lemma synch_params_covers (rows : list param_row)
  (param_ids : list template_param) (param : template_param) :
  In param param_ids ->
  has_row (_synch_params rows param_ids) param = true.
Proof.
  intros Hin. rewrite synch_params_eq, has_row_app.
  destruct (has_row rows param) eqn:E; [reflexivity|]. cbn [orb].
  apply has_row_iff. rewrite map_map. cbn [new_param_row row_param_id].
  apply in_map. apply filter_In. split; [exact Hin|]. rewrite E. reflexivity.
Qed.

(** X16.  Synchronising keeps the existing rows as they are and appends
    rows only for template parameters that had none; afterwards every
    template parameter has a row. *)
Theorem synch_params_completes (rows : list param_row)
  (param_ids : list template_param) :
  exists new_rows,
    _synch_params rows param_ids = rows ++ new_rows
    /\ (forall param, In param param_ids ->
          has_row (_synch_params rows param_ids) param = true)
    /\ (forall r, In r new_rows ->
          exists param,
            In param param_ids /\ r = new_param_row param
            /\ has_row rows param = false).
Proof.
  eexists. split; [apply synch_params_eq|]. split.
  - intros param. apply synch_params_covers.
  - intros r Hr. apply in_map_iff in Hr. destruct Hr as (param & <- & Hp).
    apply filter_In in Hp. destruct Hp as [Hin Hf].
    exists param. repeat split; [exact Hin|].
    apply negb_true_iff. exact Hf.
Qed.

Lemma filter_none {A : Type} (f : A -> bool) (l : list A) :
  (forall x, In x l -> f x = false) -> filter f l = [].
Proof.
  induction l as [|a l IH]; intros H; [reflexivity|].
  cbn [filter]. rewrite (H a (or_introl eq_refl)).
  apply IH. intros x Hx. apply H. right. exact Hx.
Qed.

(** X17.  Synchronising twice adds nothing the second time. *)
Theorem synch_params_idempotent (rows : list param_row)
  (param_ids : list template_param) :
  _synch_params (_synch_params rows param_ids) param_ids
  = _synch_params rows param_ids.
Proof.
  rewrite (synch_params_eq (_synch_params rows param_ids)).
  rewrite filter_none; [apply app_nil_r|].
  intros param Hin. rewrite (synch_params_covers rows _ _ Hin). reflexivity.
Qed.

(** X18.  When the template's parameters have distinct ids and no
    parameter has two rows, synchronising leaves no parameter with two
    rows. *)
Theorem synch_params_one_row_each (rows : list param_row)
  (param_ids : list template_param) :
  NoDup (map tp_id param_ids) ->
  NoDup (map row_param_id rows) ->
  NoDup (map row_param_id (_synch_params rows param_ids)).
Proof.
  intros Hp Hr. rewrite synch_params_eq, map_app, map_map.
  cbn [new_param_row row_param_id].
  assert (Hnew : NoDup (map tp_id
            (filter (fun param => negb (has_row rows param)) param_ids))).
  { clear Hr. induction param_ids as [|p ps IH]; [constructor|].
    cbn [map] in Hp. inversion Hp as [|? ? Hnotin Hp']; subst.
    cbn [filter]. destruct (negb (has_row rows p)); [|apply IH, Hp'].
    cbn [map]. constructor; [|apply IH, Hp'].
    intros Hin. apply Hnotin. apply in_map_iff in Hin.
    destruct Hin as (q & Hq & Hf). apply filter_In in Hf.
    rewrite <- Hq. apply in_map. exact (proj1 Hf). }
  apply NoDup_app; [exact Hr | exact Hnew |].
  intros a Ha Hb. apply in_map_iff in Hb. destruct Hb as (q & Hq & Hf).
  apply filter_In in Hf. destruct Hf as [_ Hf].
  apply negb_true_iff in Hf.
  assert (Hrow : has_row rows q = true).
  { apply has_row_iff. rewrite Hq. exact Ha. }
  congruence.
Qed.

(** X18, witness: one existing row, a template with two parameters. *)
Lemma synch_params_one_row_each_witness :
  NoDup (map row_param_id
           (_synch_params
              [new_param_row
                 {| tp_id := 1; tp_type := Some "str"; tp_name := "a";
                    tp_fields := SampleParams.partner_param |}]
              [{| tp_id := 1; tp_type := Some "str"; tp_name := "a";
                  tp_fields := SampleParams.partner_param |};
               {| tp_id := 2; tp_type := Some "num"; tp_name := "b";
                  tp_fields := SampleParams.partner_param |}])).
Proof.
  apply synch_params_one_row_each;
    repeat constructor; cbn; intuition discriminate.
Defined.

(** ** Writing and recomputing the comparison mode *)

Section SwitchFacts.

Variable clock : Date.t.
Variable new_id : Z.
Variable today : Date.t.
Variable first_printable : Date.t.
Variable date_range_table : list date_range.
Variable default_order : list date_range -> list date_range.
Variable order_by_date_start : list date_range -> list date_range.

(** X19.  Writing [comparison_mode = True] always succeeds, unsets both
    fixed dates and keeps the periods; the flag recomputed afterwards is
    true exactly when the instance has a period. *)
Theorem entering_then_recomputing (record : instance) :
  exists record',
    _inverse_comparison_mode clock new_id true record = Ok record'
    /\ date_from record' = None /\ date_to record' = None
    /\ period_ids record' = period_ids record
    /\ (_compute_comparison_mode record' = true
        <-> period_ids record <> []).
Proof.
  eexists. split; [reflexivity|].
  split; [reflexivity|]. split; [reflexivity|]. split; [reflexivity|].
  unfold _compute_comparison_mode. cbn [set_dates period_ids date_from].
  destruct (period_ids record) as [|p ps]; cbn; split.
  - discriminate.
  - congruence.
  - discriminate.
  - reflexivity.
Qed.

(** X20.  Writing [comparison_mode = False] on an instance whose two
    fixed dates are set leaves one period, named Default.  The instance is
    then out of comparison mode, the period resolves to the instance's
    range and is valid, and it satisfies the mode/source check and the
    table constraints. *)
Theorem leaving_yields_valid_default (record : instance) (a b : Date.t) :
  date_from record = Some a ->
  date_to record = Some b ->
  exists record' p,
    _inverse_comparison_mode clock new_id false record = Ok record'
    /\ period_ids record' = [p]
    /\ name p = "Default"
    /\ _compute_comparison_mode record' = false
    /\ _compute_dates today first_printable date_range_table default_order
         order_by_date_start record' p
       = Ok {| p_date_from := Some a; p_date_to := Some b; valid := true |}
    /\ _check_mode_source p = Ok tt
    /\ _sql_constraints (period_ids record') = Ok tt.
Proof.
  intros Ha Hb. unfold _inverse_comparison_mode. rewrite Ha, Hb.
  cbn [negb Py.truthy bind].
  eexists. exists (default_period new_id (inst_id record)).
  split; [reflexivity|]. repeat split.
Qed.

End SwitchFacts.

(** X20, witness: the instance with the fixed range of 2024. *)
Lemma leaving_yields_valid_default_witness :
  exists record' p,
    _inverse_comparison_mode 0 9 false Sample.fixed_instance = Ok record'
    /\ period_ids record' = [p]
    /\ name p = "Default"
    /\ _compute_comparison_mode record' = false
    /\ _compute_dates 0 Sample.first_printable []
        (fun l => l) (fun l => l) record' p
       = Ok {| p_date_from := Some Sample.jan_1;
               p_date_to := Some Sample.dec_31; valid := true |}
    /\ _check_mode_source p = Ok tt
    /\ _sql_constraints (period_ids record') = Ok tt.
Proof.
  apply (@leaving_yields_valid_default 0 9 0 Sample.first_printable []
      (fun l => l) (fun l => l)
           Sample.fixed_instance Sample.jan_1 Sample.dec_31);
    reflexivity.
Defined.

(** ** Text substitution *)

Lemma drop_length (n : nat) (s : string) :
  (String.length (drop n s) <= String.length s)%nat.
Proof.
  revert s. induction n as [|n IH]; intros s; [cbn; lia|].
  destruct s as [|c s]; cbn [drop String.length]; [lia|].
  specialize (IH s). lia.
Qed.

Lemma replace_aux_fuel (old new : string) :
  old <> "" ->
  forall f1 f2 s,
    (String.length s <= f1)%nat -> (String.length s <= f2)%nat ->
    replace_aux f1 old new s = replace_aux f2 old new s.
Proof.
  intros Hold. induction f1 as [|f1 IH]; intros f2 s H1 H2.
  - destruct s; [|cbn in H1; lia]. destruct f2; reflexivity.
  - destruct f2 as [|f2].
    + destruct s; [reflexivity | cbn in H2; lia].
    + destruct s as [|c s]; [reflexivity|].
      cbn [replace_aux]. cbn [String.length] in H1, H2.
      destruct (String.prefix old (String c s)).
      * f_equal. destruct old as [|a old']; [congruence|].
        cbn [String.length drop].
        pose proof (drop_length (String.length old') s).
        apply IH; lia.
      * f_equal. apply IH; lia.
Qed.

(** For a non-empty pattern, [str_replace] does not depend on the
    fuel it is run with, and it works from left to right: an occurrence at
    the front is replaced and the rest is processed after it, any other
    first character is kept. *)
Theorem str_replace_unfolds (old new : string) :
  old <> "" ->
  (forall fuel s, (String.length s <= fuel)%nat ->
     replace_aux fuel old new s = str_replace old new s)
  /\ (forall s, str_replace old new (old ++ s)
                = (new ++ str_replace old new s)%string)
  /\ (forall c s, String.prefix old (String c s) = false ->
        str_replace old new (String c s)
        = String c (str_replace old new s)).
Proof.
  intros Hold. split; [|split].
  - intros fuel s H. unfold str_replace.
    apply replace_aux_fuel; [exact Hold | exact H | lia].
  - intros s. unfold str_replace at 1.
    destruct old as [|a old']; [congruence|].
    cbn [String.append String.length replace_aux].
    change (String a (old' ++ s)%string)
      with ((String a old') ++ s)%string.
    rewrite prefix_append. f_equal.
    cbn [String.append String.length drop].
    assert (Hd : forall o, drop (String.length o) (o ++ s) = s).
    { induction o as [|x o IHo]; [reflexivity | exact IHo]. }
    rewrite Hd. unfold str_replace.
    apply replace_aux_fuel; [congruence | | lia].
    clear. induction old' as [|x o IHo]; cbn; lia.
  - intros c s Hp. unfold str_replace. cbn [String.length replace_aux].
    rewrite Hp. reflexivity.
Qed.

Lemma replace_aux_absent (old new : string) (fuel : nat) :
  forall s, contains old s = false -> replace_aux fuel old new s = s.
Proof.
  induction fuel as [|fuel IH]; intros s H; [reflexivity|].
  destruct s as [|c s]; [reflexivity|].
  cbn [contains] in H. apply orb_false_iff in H. destruct H as [Hp Hc].
  cbn [replace_aux]. rewrite Hp. f_equal. apply IH. exact Hc.
Qed.

(** X21.  A description format that contains neither [<<from>>] nor
    [<<to>>] is used as it is, whatever the dates. *)
Theorem subst_without_tags (description_format df dt : string) :
  contains "<<from>>" description_format = false ->
  contains "<<to>>" description_format = false ->
  _subst_description_dates description_format df dt = description_format.
Proof.
  intros Hf Ht. unfold _subst_description_dates. cbn [fold_left fst snd].
  unfold str_replace. rewrite (replace_aux_absent _ _ _ _ Hf).
  apply replace_aux_absent. exact Ht.
Qed.

(** Replacing the tag at the front of a format. *)
Lemma str_replace_unfolds_witness :
  str_replace "<<to>>" "2024-03-17" ("<<to>>" ++ " incl.")
  = ("2024-03-17" ++ str_replace "<<to>>" "2024-03-17" " incl.")%string.
Proof.
  apply (proj1 (proj2 (@str_replace_unfolds "<<to>>" "2024-03-17"
                         ltac:(discriminate)))).
Defined.

(** X21, witness: a constant description. *)
Lemma subst_without_tags_witness :
  _subst_description_dates "Year to date" "2024-01-01" "2024-03-15"
  = "Year to date".
Proof.
  apply (@subst_without_tags "Year to date" "2024-01-01" "2024-03-15");
    reflexivity.
Defined.

(** ** Descriptions and the build loop *)

Section BuildFacts.

Variable kpi_matrix : Type.
Variable aep : Type.
Variable matrix_dict : Type.
Variable ref_record : Type.
Variable ref_value : Type.
Variable env_search : string -> string -> option string -> list ref_record.
Variable read_field : ref_record -> string -> ref_value.
Variable _prepare_aep : Z -> result aep.
Variable prepare_kpi_matrix : result kpi_matrix.
Variable declare_and_compute_period :
  context ref_value -> kpi_matrix -> Z -> string -> option string -> aep ->
  Date.t -> Date.t -> option target_move_t -> list Z -> option string ->
  result kpi_matrix.
Variable declare_sum :
  kpi_matrix -> Z -> list (sign_t * Z) -> string -> option string ->
  bool -> result kpi_matrix.
Variable declare_comparison :
  kpi_matrix -> Z -> option Z -> option Z -> string -> option string ->
  result kpi_matrix.
Variable compute_comparisons : kpi_matrix -> result kpi_matrix.
Variable compute_sums : kpi_matrix -> result kpi_matrix.
Variable as_dict : kpi_matrix -> result matrix_dict.
Variable _format_date : instance -> Date.t -> result string.

Let add_column :=
  _add_column declare_and_compute_period declare_sum declare_comparison.
Let build :=
  build_columns declare_and_compute_period declare_sum declare_comparison
    _format_date.
Let run :=
  compute env_search read_field _prepare_aep prepare_kpi_matrix
    declare_and_compute_period declare_sum declare_comparison
    compute_comparisons compute_sums as_dict _format_date.

(** X22.  A column without resolved dates gets no description, and no
    date is formatted for it; a column gets a description only when its
    mode is not [NoDateFilter] and both its dates are resolved. *)
Theorem describe_needs_dates (self : instance) (c : column) :
  (p_date_from (col_dates c) = None -> p_date_to (col_dates c) = None ->
   describe _format_date self c = Ok None)
  /\ (forall s, describe _format_date self c = Ok (Some s) ->
        mode (col_period c) <> MODE_NONE
        /\ p_date_from (col_dates c) <> None
        /\ p_date_to (col_dates c) <> None).
Proof.
  unfold describe, format_or_empty. split.
  - intros -> ->. cbn.
    destruct (mode_eqb (mode (col_period c)) MODE_NONE); reflexivity.
  - intros s H.
    destruct (p_date_from (col_dates c)) as [a|],
             (p_date_to (col_dates c)) as [b|];
      destruct (mode (col_period c)); cbn [mode_eqb] in H;
      break_ok H; try discriminate;
      repeat split; discriminate.
Qed.

(** The collaborators never fail. *)
Hypothesis prepare_aep_total :
  forall company, is_ok (_prepare_aep company) = true.
Hypothesis prepare_kpi_matrix_total : is_ok prepare_kpi_matrix = true.
Hypothesis declare_and_compute_period_total :
  forall ctx km col label description a df dt tm subkpis model,
    is_ok (declare_and_compute_period ctx km col label description a df dt
             tm subkpis model) = true.
Hypothesis declare_sum_total :
  forall km col l label description accdet,
    is_ok (declare_sum km col l label description accdet) = true.
Hypothesis declare_comparison_total :
  forall km col to_id from_id label description,
    is_ok (declare_comparison km col to_id from_id label description) = true.
Hypothesis compute_comparisons_total :
  forall km, is_ok (compute_comparisons km) = true.
Hypothesis compute_sums_total : forall km, is_ok (compute_sums km) = true.
Hypothesis as_dict_total : forall km, is_ok (as_dict km) = true.
Hypothesis format_date_total :
  forall self d, is_ok (_format_date self d) = true.

Lemma describe_total (self : instance) (c : column) :
  is_ok (describe _format_date self c) = true.
Proof.
  unfold describe, format_or_empty.
  destruct (p_date_from (col_dates c)) as [a|].
  - pose proof (format_date_total self a) as Ha.
    destruct (_format_date self a) as [sa|]; [|discriminate]. cbn [bind].
    destruct (p_date_to (col_dates c)) as [b|].
    + pose proof (format_date_total self b) as Hb.
      destruct (_format_date self b) as [sb|]; [|discriminate].
      cbn [bind]. destruct (mode_eqb _ _); [reflexivity|].
      destruct (opt_date_eqb _ _ && _).
      * destruct (Py.nonempty _); [reflexivity|].
        pose proof (format_date_total self a) as Ha'.
        destruct (_format_date self a); [reflexivity | discriminate].
      * cbn [Py.truthy andb]. destruct (Py.nonempty _); reflexivity.
    + cbn [bind]. destruct (mode_eqb _ _); reflexivity.
  - cbn [bind]. destruct (p_date_to (col_dates c)) as [b|].
    + pose proof (format_date_total self b) as Hb.
      destruct (_format_date self b) as [sb|]; [|discriminate].
      cbn [bind]. destruct (mode_eqb _ _); reflexivity.
    + cbn [bind]. destruct (mode_eqb _ _); reflexivity.
Qed.

Lemma add_column_total (ctx : context ref_value) (self : instance)
  (a : aep) (km : kpi_matrix) (c : column) (label : string)
  (description : option string) :
  ~ lacks_dates c ->
  is_ok (add_column ctx self a km c label description) = true.
Proof.
  intros Hc. unfold add_column, _add_column, _add_column_actuals,
    _add_column_actuals_alt, _add_column_sumcol, _add_column_cmpcol.
  destruct (source (col_period c)) eqn:Hs;
    try apply declare_sum_total; try apply declare_comparison_total;
    destruct (p_date_from (col_dates c)) as [df|] eqn:Hf;
    destruct (p_date_to (col_dates c)) as [dt|] eqn:Ht;
    try apply declare_and_compute_period_total;
    exfalso; apply Hc; unfold lacks_dates; rewrite Hs, ?Hf, ?Ht;
    (split; [auto | auto]).
Qed.

Lemma build_total (ctx : context ref_value) (self : instance) (a : aep)
  (cols : list column) :
  (forall c, In c cols -> ~ lacks_dates c) ->
  forall km, is_ok (build ctx self a km cols) = true.
Proof.
  unfold build. induction cols as [|c cols IH]; intros Hall km;
    [reflexivity|].
  cbn [build_columns].
  pose proof (describe_total self c) as Hd.
  destruct (describe _format_date self c) as [d|]; [|discriminate].
  cbn [bind].
  pose proof (@add_column_total ctx self a km c (name (col_period c)) d
                (Hall c (or_introl eq_refl))) as Ha.
  unfold add_column in Ha.
  destruct (_add_column _ _ _ _ _ _ _ _ _ _) as [km'|]; [|discriminate].
  cbn [bind]. apply IH. intros q Hq. apply Hall. right. exact Hq.
Qed.

(** X23.  With collaborators that never fail, [compute] returns a matrix
    exactly when every parameter value resolves and no actuals column
    lacks a resolved date. *)
Theorem compute_returns_iff (self : instance) (cols : list column) :
  is_ok (run self cols) = true
  <-> is_ok (_param_vals env_search read_field self) = true
      /\ forall c, In c cols -> ~ lacks_dates c.
Proof.
  unfold run, compute, _compute_matrix. split.
  - intros H.
    destruct (_param_vals env_search read_field self) as [ctx|];
      [|discriminate].
    split; [reflexivity|]. intros c Hin Hc. cbn [bind] in H.
    destruct (_prepare_aep (company_id self)) as [a|]; [|discriminate].
    cbn [bind] in H.
    destruct prepare_kpi_matrix as [km0|]; [|discriminate].
    cbn [bind] in H.
    destruct (in_split _ _ Hin) as (pre & post & ->).
    fold (build ctx self a km0 (pre ++ c :: post)) in H.
    unfold build in H.
    rewrite (build_columns_app declare_and_compute_period declare_sum
               declare_comparison _format_date ctx self a pre (c :: post))
      in H.
    destruct (build_columns _ _ _ _ ctx self a km0 pre) as [km1|];
      [|discriminate].
    cbn [bind] in H.
    destruct (@build_columns_stops _ _ _ declare_and_compute_period
                declare_sum declare_comparison _format_date ctx self a c
                post km1 Hc) as [Hstop _].
    destruct (build_columns _ _ _ _ ctx self a km1 (c :: post));
      [discriminate | discriminate].
  - intros [Hp Hall].
    destruct (_param_vals env_search read_field self) as [ctx|];
      [|discriminate].
    cbn [bind].
    pose proof (prepare_aep_total (company_id self)) as Ha.
    destruct (_prepare_aep (company_id self)) as [a|]; [|discriminate].
    cbn [bind]. pose proof prepare_kpi_matrix_total as Hk.
    destruct prepare_kpi_matrix as [km0|]; [|discriminate].
    cbn [bind].
    pose proof (@build_total ctx self a cols Hall km0) as Hb.
    unfold build in Hb.
    destruct (build_columns _ _ _ _ ctx self a km0 cols) as [km1|];
      [|discriminate].
    cbn [bind]. pose proof (compute_comparisons_total km1) as Hcc.
    destruct (compute_comparisons km1) as [km2|]; [|discriminate].
    cbn [bind]. pose proof (compute_sums_total km2) as Hcs.
    destruct (compute_sums km2) as [km3|]; [|discriminate].
    cbn [bind]. apply as_dict_total.
Qed.

End BuildFacts.

(** X23, witness: the recording accumulator and two columns without
    [date_to]: no matrix is returned. *)
Lemma compute_returns_iff_witness :
  is_ok (Recorder.run Recorder.two_columns [Recorder.q1; Recorder.q2]) = true
  <-> is_ok (_param_vals (fun _ _ _ => @nil unit) (fun _ _ => tt)
               Recorder.two_columns) = true
      /\ forall c, In c [Recorder.q1; Recorder.q2] -> ~ lacks_dates c.
Proof.
  apply (@compute_returns_iff
           Recorder.matrix unit Recorder.matrix unit unit
           (fun _ _ _ => @nil unit) (fun _ _ => tt)
           (fun _ => Ok tt) (Ok [])
           Recorder.declare_and_compute_period Recorder.declare_sum
           Recorder.declare_comparison (fun km => Ok km)
           (fun km => Ok km) (fun km => Ok km) (fun _ _ => Ok "")
           (fun _ => eq_refl) eq_refl
           (fun _ _ _ _ _ _ _ _ _ _ _ => eq_refl)
           (fun _ _ _ _ _ _ => eq_refl)
           (fun _ _ _ _ _ _ => eq_refl)
           (fun _ => eq_refl) (fun _ => eq_refl) (fun _ => eq_refl)
           (fun _ _ => eq_refl)
           Recorder.two_columns [Recorder.q1; Recorder.q2]).
Defined.

(** ** Date-range handlers *)

Lemma opt_date_eqb_refl (a : option Date.t) : opt_date_eqb a a = true.
Proof. destruct a; [apply Z.eqb_refl | reflexivity]. Qed.

Lemma opt_date_eqb_eq (a b : option Date.t) :
  opt_date_eqb a b = true -> a = b.
Proof.
  destruct a, b; cbn; intros H; try discriminate; [|reflexivity].
  apply Z.eqb_eq in H. congruence.
Qed.

(** X24.  Choosing a date range and letting both handlers run keeps the
    choice: the dates written by the date-range handler are the ones the
    dates handler expects. *)
Theorem onchange_dates_after_date_range (self : range_fields) :
  _onchange_dates (_onchange_date_range self) = _onchange_date_range self
  /\ date_range_id (_onchange_date_range self) = date_range_id self.
Proof.
  unfold _onchange_dates, _onchange_date_range.
  destruct (date_range_id self) as [r|] eqn:E.
  - cbn [date_range_id rf_date_from rf_date_to opt_date_eqb].
    rewrite !Z.eqb_refl. split; reflexivity.
  - rewrite E. split; reflexivity.
Qed.

(** X25.  The dates handler never changes the dates; it drops the chosen
    date range as soon as a date differs from the range's bounds, so a
    range it keeps always agrees with both dates. *)
Theorem onchange_dates_keeps_agreeing_range (self : range_fields) :
  rf_date_from (_onchange_dates self) = rf_date_from self
  /\ rf_date_to (_onchange_dates self) = rf_date_to self
  /\ forall r, date_range_id (_onchange_dates self) = Some r ->
       date_range_id self = Some r
       /\ rf_date_from self = Some (date_start r)
       /\ rf_date_to self = Some (date_end r).
Proof.
  unfold _onchange_dates.
  destruct (date_range_id self) as [r0|] eqn:E.
  - destruct (opt_date_eqb (rf_date_from self) (Some (date_start r0))) eqn:Ef;
      destruct (opt_date_eqb (rf_date_to self) (Some (date_end r0))) eqn:Et;
      cbn [negb orb date_range_id rf_date_from rf_date_to];
      repeat split; try discriminate;
      try (rewrite E in *; congruence).
    + rewrite E in H. injection H as <-. apply opt_date_eqb_eq, Ef.
    + rewrite E in H. injection H as <-. apply opt_date_eqb_eq, Et.
  - repeat split; rewrite E in *; discriminate.
Qed.

(** ** Cleaning up temporary reports *)



